(** * go-withings: a shallow embedding of the client and of its OAuth2 extension

    The development follows the layout of the repository:
    - [strings], [url], [json], [mapstructure], [net_url], [http]: the
      functions of Go's standard library and of mapstructure that the code
      calls and whose behaviour the properties depend on; what a library
      decides outside the cases written out here is a member of a class
      ([GoRuntime], [net_url.Library], [http.Library],
      [mapstructure.Foreign], [TimeOps]);
    - [withings]: [withings/withings.go] (client, request construction,
      envelope decoding) and [withings/measure.go] (enumerations, filters and
      the form built by each measure call);
    - [x_oauth2], [oauth2]: the wrapped [golang.org/x/oauth2] functions and
      [oauth2/config.go] (consent URL and code exchange);
    - [Sample]: one concrete choice for the classes, to run the calls on
      inputs.

    Go's [int] is taken to be 64 bits wide and is represented by [Z]; a Go
    [string] is a [string]; a [map[K]V] is a [gmap K V], except for the map
    a JSON object decodes to, which is the list of its entries. *)

From Stdlib Require Import ZArith String Ascii List Bool Lia.
From Stdlib Require Import DecimalString.
From Stdlib Require Import Floats.SpecFloat.
From stdpp Require Import base option list strings gmap.

Local Open Scope string_scope.
Local Open Scope list_scope.
Local Open Scope Z_scope.

Set Warnings "-register-all".

(** ** Go's [strings] package *)
Module strings.

(** [strings.HasSuffix]:
    [len(s) >= len(suffix) && s[len(s)-len(suffix):] == suffix]. *)
Definition HasSuffix (s suffix : string) : bool :=
  (String.length suffix <=? String.length s)%nat
  && String.eqb
       (String.substring (String.length s - String.length suffix)
                         (String.length suffix) s)
       suffix.

(** [strings.HasPrefix]:
    [len(s) >= len(prefix) && s[:len(prefix)] == prefix]. *)
Fixpoint HasPrefix (s prefix : string) {struct prefix} : bool :=
  match prefix, s with
  | EmptyString, _ => true
  | String p prefix', String c s' => Ascii.eqb c p && HasPrefix s' prefix'
  | String _ _, EmptyString => false
  end.

(** [strings.Contains(s, substr)] *)
Fixpoint Contains (s substr : string) : bool :=
  HasPrefix s substr
  || match s with
     | EmptyString => false
     | String _ rest => Contains rest substr
     end.

(** [strings.Join]: the elements separated by [sep]. *)
Fixpoint Join (elems : list string) (sep : string) : string :=
  match elems with
  | [] => ""
  | [e] => e
  | e :: rest => e +:+ sep +:+ Join rest sep
  end.

End strings.

(** [fmt.Sprintf("%d", n)] for an integer [n]. *)
Definition Sprintf_d (n : Z) : string := NilZero.string_of_int (Z.to_int n).

(** ** Go's [url.Values]: [map[string][]string] *)
Module url.

Abbreviation Values := (gmap string (list string)).

(** [Values.Set]: the key is given the single value, replacing any other. *)
Definition Set_ (v : Values) (key value : string) : Values :=
  <[key := [value]]> v.

(** [Values.Add]: the value is appended to those already under the key. *)
Definition Add (v : Values) (key value : string) : Values :=
  <[key := default [] (v !! key) ++ [value]]> v.

End url.

(** ** Errors *)

(** The kinds of [reflect] that the messages of the decoder name. *)
Inductive Kind : Type :=
  | KBool | KInt | KFloat64 | KString | KSlice | KMap | KStruct | KOther.

(** One message of the decoder: the format it is made from, and its
    operands. *)
Inductive derror : Type :=
  (* "'%s' expected type '%s', got unconvertible type '%s', value: '%v'" *)
  | Unconvertible (name : string) (expected got : Kind)
  (* "'%s' expected a map, got '%s'" *)
  | ExpectedMap (name : string) (got : Kind)
  (* raised while decoding a value of a kind that is not modelled here *)
  | OtherKind (name msg : string).

(** A Go [error] value. [io.EOF] and the two context errors are sentinels
    the code compares against or hands back; the other constructors keep
    what the code puts into the error it creates. *)
Inductive error : Type :=
  | io_EOF
  | context_Canceled
  | context_DeadlineExceeded
  | errors_New (msg : string)
  (* fmt.Errorf(format, arg), with the operand as rendered by its String() *)
  | fmt_Errorf (format arg : string)
  (* *mapstructure.Error, or the single error of a decode outside a struct *)
  | mapstructure_Error (errs : list derror)
  (* an error made by net/url, net/http, encoding/json or the HTTP client *)
  | library_error (pkg msg : string).

(** ** Go's [context.Context]

    The state of a context at the moment the code looks at it: [Done()] is
    closed exactly when [Err()] is non-nil. *)
Inductive Context : Type :=
  | ctxActive
  | ctxDone (reason : error).

Definition context_Background : Context := ctxActive.

Definition Context_Err (ctx : Context) : option error :=
  match ctx with ctxActive => None | ctxDone reason => Some reason end.

(** [select { case <-ctx.Done(): ...; default: }]: whether the receive is
    ready. *)
Definition Context_Done_closed (ctx : Context) : bool :=
  match ctx with ctxActive => false | ctxDone _ => true end.

(** ** Values that [encoding/json] stores in an [interface{}]

    [nil], [bool], [float64], [string], [[]interface{}] and
    [map[string]interface{}]. The entries of a map are listed in the order in
    which a [range] over the Go map visits them; that order is arbitrary. *)
Inductive jvalue : Type :=
  | JNil
  | JBool (b : bool)
  | JFloat64 (f : spec_float)
  | JString (s : string)
  | JSlice (l : list jvalue)
  | JMap (m : list (string * jvalue)).

Abbreviation jobject := (list (string * jvalue)).

Definition jkind (v : jvalue) : Kind :=
  match v with
  | JNil => KOther
  | JBool _ => KBool
  | JFloat64 _ => KFloat64
  | JString _ => KString
  | JSlice _ => KSlice
  | JMap _ => KMap
  end.

(** [m[key]] on a [map[string]interface{}]. *)
Fixpoint MapIndex (m : jobject) (key : string) : option jvalue :=
  match m with
  | [] => None
  | (k, v) :: m' => if String.eqb k key then Some v else MapIndex m' key
  end.

(** What the Go runtime and the libraries outside this repository decide. *)
Class GoRuntime := {
  (* strings.EqualFold: equality under Unicode simple case folding *)
  EqualFold : string -> string -> bool;
  (* int64(f) when f is NaN, infinite or outside the range of int64: the
     language leaves the result to the implementation *)
  int64_unrepresentable : spec_float -> Z;
  (* json.NewDecoder(r).Decode(&m) on a body that holds something other than
     white space: the message of the error (of syntax, of type, or of the
     read), or the map the first JSON value decodes to *)
  json_parse : string -> string + jobject;
  (* url.Values.Encode *)
  Values_Encode : gmap string (list string) -> string
}.

(** [int64(f)] for a [float64]: truncation toward zero. *)
Definition float64_to_int64 `{GoRuntime} (f : spec_float) : Z :=
  match f with
  | S754_zero _ => 0
  | S754_finite s m e =>
      let mag := Z.shiftl (Z.pos m) e in
      let z := if s then - mag else mag in
      if (- 2 ^ 63 <=? z) && (z <? 2 ^ 63) then z
      else int64_unrepresentable f
  | _ => int64_unrepresentable f
  end.

(** ** [encoding/json]: decoding a response body into a map *)
Module json.

(** The four bytes the scanner skips between values. *)
Definition isSpace (c : ascii) : bool :=
  (Ascii.eqb c " " || Ascii.eqb c "009" || Ascii.eqb c "013"
   || Ascii.eqb c "010")%char.

Fixpoint blank (body : string) : bool :=
  match body with
  | EmptyString => true
  | String c rest => isSpace c && blank rest
  end.

(** [json.NewDecoder(r).Decode(&m)]. A stream that holds no value, that is
    an empty or blank body, gives [io.EOF] and leaves [m] alone. *)
Definition Decode `{GoRuntime} (body : string) (m : jobject)
  : jobject * option error :=
  if blank body then (m, Some io_EOF)
  else match json_parse body with
       | inl msg => (m, Some (library_error "encoding/json" msg))
       | inr m' => (m', None)
       end.

End json.

(** ** [github.com/mitchellh/mapstructure], with [TagName: "json"] and every
    other option at its default *)
Module mapstructure.

Record field (V : Type) := Field {
  Name : string;      (* the Go field name *)
  Tag : string;       (* the name in the field's json tag, if any *)
  Val : V
}.
Arguments Field {V}.
Arguments Name {V}.
Arguments Tag {V}.
Arguments Val {V}.

(** The value a decode writes into, seen through reflection. Booleans,
    integers and structs are modelled; a value of any other kind is kept
    opaque and decoded by [decodeOther]. *)
Class Foreign := {
  oval : Type;
  decodeOther : string -> jvalue -> oval -> oval * list derror
}.

Inductive gval `{Foreign} : Type :=
  | GBool (b : bool)
  | GInt (z : Z)
  | GStruct (fields : list (field gval))
  | GOther (x : oval).

(** The [Result] of a [DecoderConfig]: a pointer to the value to fill, or
    anything else (a nil interface included). *)
Inductive Result `{Foreign} : Type :=
  | NotPointer
  | Pointer (v : gval).

Section Decode.
Context `{GoRuntime} `{Foreign}.

(** The key a field is looked up under: the tag's name, else the field's. *)
Definition fieldName (f : field gval) : string :=
  if String.eqb (Tag f) "" then Name f else Tag f.

(** The slower search: the first key, in iteration order, that matches
    the field name up to case. *)
Fixpoint matchName (m : jobject) (name : string) : option jvalue :=
  match m with
  | [] => None
  | (k, v) :: m' => if EqualFold k name then Some v else matchName m' name
  end.

(** The value for a field: under the exact key, else under a key that
    matches up to case, else none. *)
Definition rawMapVal (m : jobject) (name : string) : option jvalue :=
  match MapIndex m name with
  | Some v => Some v
  | None => matchName m name
  end.

Definition decodeBool (name : string) (data : jvalue) (val : gval)
  : gval * list derror :=
  match data with
  | JBool b => (GBool b, [])
  | _ => (val, [Unconvertible name KBool (jkind data)])
  end.

Definition decodeInt (name : string) (data : jvalue) (val : gval)
  : gval * list derror :=
  match data with
  | JFloat64 f => (GInt (float64_to_int64 f), [])
  | _ => (val, [Unconvertible name KInt (jkind data)])
  end.

(** [if name != "" { fieldName = name + "." + fieldName }] *)
Definition qualify (name fieldName : string) : string :=
  if String.eqb name "" then fieldName else name +:+ "." +:+ fieldName.

(** [Decoder.decode]: a nil input leaves the value alone; otherwise the
    kind of the value to fill selects the decoder. For a struct every
    field is looked up in the map; the errors of the fields are
    collected and decoding goes on. *)
Fixpoint decode (name : string) (input : jvalue) (outVal : gval)
  {struct outVal} : gval * list derror :=
  match input with
  | JNil => (outVal, [])
  | _ =>
      match outVal with
      | GBool _ => decodeBool name input outVal
      | GInt _ => decodeInt name input outVal
      | GOther x =>
          let '(x', errs) := decodeOther name input x in (GOther x', errs)
      | GStruct fields =>
          match input with
          | JMap m =>
              let fix decodeFields (fs : list (field gval))
                : list (field gval) * list derror :=
                match fs with
                | [] => ([], [])
                | f :: fs' =>
                    let '(f', errs) :=
                      match rawMapVal m (fieldName f) with
                      | None => (f, [])
                      | Some raw =>
                          let '(v', e) :=
                            decode (qualify name (fieldName f)) raw (Val f)
                          in (Field (Name f) (Tag f) v', e)
                      end in
                    let '(fs'', errs') := decodeFields fs' in
                    (f' :: fs'', errs ++ errs')
                end in
              let '(fields', errs) := decodeFields fields in
              (GStruct fields', errs)
          | _ => (outVal, [ExpectedMap name (jkind input)])
          end
      end
  end.

(** [mapstructure.NewDecoder(config)] followed by [decoder.Decode(input)]. *)
Definition Decode (input : jvalue) (output : Result)
  : Result * option error :=
  match output with
  | NotPointer => (NotPointer, Some (errors_New "result must be a pointer"))
  | Pointer v =>
      let '(v', errs) := decode "" input v in
      (Pointer v',
       match errs with [] => None | _ => Some (mapstructure_Error errs) end)
  end.

End Decode.

End mapstructure.

(** ** [net/url]: URLs and the resolution of a relative path

    [URL] has the fields of [url.URL]. Resolution and printing are written
    out for the URLs this client is built for: a base whose path is made of
    unreserved characters and slashes, and a relative path of the same kind.
    Every other case is left to the library ([url_Parse_other],
    [url_String_other]). *)
Module net_url.

Record URL := {
  Scheme : string;
  Opaque : string;
  User : option string;
  Host : string;
  Path : string;
  RawPath : string;
  OmitHost : bool;
  ForceQuery : bool;
  RawQuery : string;
  Fragment : string;
  RawFragment : string
}.

Class Library := {
  (* URL.Parse(ref) outside the case written out below *)
  url_Parse_other : URL -> string -> error + URL;
  (* URL.String() outside the case written out below *)
  url_String_other : URL -> string
}.

(** Letters, digits and [-_.~]: never escaped, never a delimiter. *)
Definition unreserved (c : ascii) : bool :=
  let n := nat_of_ascii c in
  ((48 <=? n) && (n <=? 57) || (65 <=? n) && (n <=? 90)
   || (97 <=? n) && (n <=? 122)
   || (n =? 45) || (n =? 95) || (n =? 46) || (n =? 126))%nat.

Fixpoint all_chars (p : ascii -> bool) (s : string) : bool :=
  match s with
  | EmptyString => true
  | String c rest => p c && all_chars p rest
  end.

(** The segments of a path: [strings.Split(s, "/")]. *)
Fixpoint segments (s : string) : list string :=
  match s with
  | EmptyString => [""]
  | String c rest =>
      if Ascii.eqb c "/" then "" :: segments rest
      else match segments rest with
           | [] => [String c ""]
           | seg :: segs => String c seg :: segs
           end
  end.

Definition no_dot_segment (s : string) : bool :=
  forallb (fun seg => negb (String.eqb seg "." || String.eqb seg ".."))
          (segments s).

Definition plain_path (s : string) : bool :=
  all_chars (fun c => unreserved c || Ascii.eqb c "/") s
  && no_dot_segment s.

(** A hierarchical URL with an absolute plain path and nothing after it. *)
Definition plain_base (u : URL) : bool :=
  String.eqb (Opaque u) "" && bool_decide (User u = None)
  && all_chars unreserved (Host u)
  && strings.HasPrefix (Path u) "/" && plain_path (Path u)
  && String.eqb (RawPath u) "" && negb (OmitHost u).

(** A relative reference that is a non-empty plain path. *)
Definition plain_ref (ref : string) : bool :=
  negb (String.eqb ref "") && negb (strings.HasPrefix ref "/")
  && plain_path ref.

(** [base[:strings.LastIndex(base, "/")+1]]: the base path up to and
    including its last slash. *)
Fixpoint upto_last_slash (base : string) : string :=
  match base with
  | EmptyString => ""
  | String c rest =>
      let r := upto_last_slash rest in
      if String.eqb r "" then (if Ascii.eqb c "/" then "/" else "")
      else String c r
  end.

(** [URL.Parse(ref)]: parse [ref], then resolve it against the base as
    RFC 3986 section 5.2 says. For a plain relative path the result keeps
    scheme and authority of the base, merges the paths and has neither
    query nor fragment. *)
Definition Parse `{Library} (u : URL) (ref : string) : error + URL :=
  if plain_base u && plain_ref ref then
    inr {| Scheme := Scheme u; Opaque := ""; User := User u;
           Host := Host u;
           Path := upto_last_slash (Path u) +:+ ref; RawPath := "";
           OmitHost := false; ForceQuery := false; RawQuery := "";
           Fragment := ""; RawFragment := "" |}
  else url_Parse_other u ref.

(** [URL.String()]: [scheme://host/path] when there is nothing else. *)
Definition String_ `{Library} (u : URL) : string :=
  if plain_base u && negb (ForceQuery u) && String.eqb (RawQuery u) ""
     && String.eqb (Fragment u) ""
  then
    (if String.eqb (Scheme u) "" then "" else Scheme u +:+ ":")
    +:+ (if negb (String.eqb (Scheme u) "") || negb (String.eqb (Host u) "")
         then "//" +:+ Host u else "")
    +:+ Path u
  else url_String_other u.

End net_url.

(** ** [net/http] *)
Module http.

Abbreviation Header := (gmap string (list string)).

Record Request := {
  ctx : option Context;      (* the unexported field; nil when unset *)
  Method : string;
  URL : string;              (* the URL the request was made for *)
  Header_ : Header;
  Body : string
}.

(** [Request.Context()]: never nil, the background context stands in
    for an unset one. [None] is the nil interface. *)
Definition Request_Context (r : Request) : option Context :=
  Some (default context_Background (ctx r)).

(** [r.Header.Set(key, value)] *)
Definition Header_Set (r : Request) (key value : string) : Request :=
  {| ctx := ctx r; Method := Method r; URL := URL r;
     Header_ := <[key := [value]]> (Header_ r); Body := Body r |}.

Record Response := {
  StatusCode : Z;
  RespBody : string
}.

Class Library := {
  (* http.NewRequestWithContext(ctx, method, url, body) *)
  NewRequestWithContext : forall (ctx : Context) (method url body : string),
    error + Request
}.

Definition MethodPost : string := "POST".

End http.

(** ** Go's [time.Time], as far as the measure calls use it *)
Class TimeOps (Time : Type) := {
  IsZero : Time -> bool;          (* t.IsZero() *)
  Unix : Time -> Z;               (* t.Unix() *)
  Format_ymd : Time -> string     (* t.Format("2006-01-02") *)
}.

(** * Package [withings] *)
Module withings.
Import mapstructure.

(** ** withings.go *)

Definition endpoint : net_url.URL :=   (* url.Parse("https://wbsapi.withings.net/") *)
  {| net_url.Scheme := "https"; net_url.Opaque := ""; net_url.User := None;
     net_url.Host := "wbsapi.withings.net"; net_url.Path := "/";
     net_url.RawPath := ""; net_url.OmitHost := false;
     net_url.ForceQuery := false; net_url.RawQuery := "";
     net_url.Fragment := ""; net_url.RawFragment := "" |}.

Definition endpointHIPAA : net_url.URL :=   (* url.Parse("https://wbsapi.us.withingsmed.net/") *)
  {| net_url.Scheme := "https"; net_url.Opaque := ""; net_url.User := None;
     net_url.Host := "wbsapi.us.withingsmed.net"; net_url.Path := "/";
     net_url.RawPath := ""; net_url.OmitHost := false;
     net_url.ForceQuery := false; net_url.RawQuery := "";
     net_url.Fragment := ""; net_url.RawFragment := "" |}.

Definition userAgent : string := "go-withings".

(** The HTTP client is the function that executes a request; the four
    services share the client and are not separate values here. *)
Record Client := {
  client : http.Request -> error + http.Response;
  BaseURL : net_url.URL;
  UserAgent : string
}.

Definition newClient (httpClient : http.Request -> error + http.Response)
  (endpoint : net_url.URL) : Client :=
  {| client := httpClient; BaseURL := endpoint; UserAgent := userAgent |}.

Definition NewClient httpClient : Client := newClient httpClient endpoint.

Definition NewHIPAAClient httpClient : Client :=
  newClient httpClient endpointHIPAA.

Module Response.
Record t := {
  HttpResponse : http.Response;
  Status : Z;
  More : bool;
  Offset : Z
}.
End Response.

Definition newResponse (r : http.Response) : Response.t :=
  {| Response.HttpResponse := r; Response.Status := 0;
     Response.More := false; Response.Offset := 0 |}.

(** What a call hands back: the two results of the Go function, the value
    behind the pointer [v] as the call leaves it, and the requests that
    were given to the HTTP client, in order. *)
Record Outcome `{Foreign} := {
  resp : option Response.t;
  err : option error;
  out : Result;
  sent : list http.Request
}.

Module apiResponse.
Record Body_t := { More : bool; Offset : Z }.
Record t := { Status : Z; Body : Body_t }.

(** [var apiResp apiResponse] *)
Definition zero : t :=
  {| Status := 0; Body := {| More := false; Offset := 0 |} |}.

(** The struct as reflection shows it, with its json tags. *)
Definition to_gval `{Foreign} (a : t) : gval :=
  GStruct
    [ Field "Status" "status" (GInt (Status a));
      Field "Body" "body"
        (GStruct [ Field "More" "more" (GBool (More (Body a)));
                   Field "Offset" "offset" (GInt (Offset (Body a))) ]) ].

Definition of_gval `{Foreign} (g : gval) : t :=
  match g with
  | GStruct [ {| Val := GInt st |};
              {| Val := GStruct [ {| Val := GBool mo |};
                                  {| Val := GInt off |} ] |} ] =>
      {| Status := st; Body := {| More := mo; Offset := off |} |}
  | _ => zero
  end.
End apiResponse.

Section Client.
Context `{GoRuntime} `{net_url.Library} `{http.Library} `{Foreign}.

Definition NewRequest (c : Client) (ctx : Context) (method urlStr : string)
  (body : string) : error + http.Request :=
  if negb (strings.HasSuffix (net_url.Path (BaseURL c)) "/") then
    inl (fmt_Errorf "BaseURL must have a trailing slash, but %q does not"
                    (net_url.String_ (BaseURL c)))
  else
    match net_url.Parse (BaseURL c) urlStr with
    | inl err => inl err
    | inr u =>
        match http.NewRequestWithContext ctx method (net_url.String_ u) body
        with
        | inl err => inl err
        | inr req =>
            inr (if negb (String.eqb (UserAgent c) "")
                 then http.Header_Set req "User-Agent" (UserAgent c)
                 else req)
        end
    end.

Definition errNonNilContext : error := errors_New "context must be non-nil".

(** The context is the one the request carries, in the state it has when
    the [select] looks at it. *)
Definition BareDo (c : Client) (req : http.Request)
  : option Response.t * option error * list http.Request :=
  match http.Request_Context req with
  | None => (None, Some errNonNilContext, [])
  | Some ctx =>
      match client c req with
      | inl err =>
          if Context_Done_closed ctx
          then (None, Context_Err ctx, [req])
          else (None, Some err, [req])
      | inr resp => (Some (newResponse resp), None, [req])
      end
  end.

(** [decode(input, output)]: a mapstructure decoder with [TagName: "json"]. *)
Definition decode (input : jobject) (output : Result)
  : Result * option error :=
  mapstructure.Decode (JMap input) output.

Definition is_EOF (e : error) : bool :=
  match e with io_EOF => true | _ => false end.

Definition Do (c : Client) (req : http.Request) (v : Result) : Outcome :=
  match BareDo c req with
  | (resp, Some err, sent) =>
      {| resp := resp; err := Some err; out := v; sent := sent |}
  | (None, None, sent) =>          (* BareDo gives a response or an error *)
      {| resp := None; err := None; out := v; sent := sent |}
  | (Some resp, None, sent) =>
      let body : jobject := [] in
      let '(body, err) :=
        json.Decode (http.RespBody (Response.HttpResponse resp)) body in
      if match err with Some e => negb (is_EOF e) | None => false end
      then {| resp := Some resp; err := err; out := v; sent := sent |}
      else
        let apiResp := apiResponse.zero in
        let '(apiResp', err) :=
          decode body (Pointer (apiResponse.to_gval apiResp)) in
        match err with
        | Some e =>
            {| resp := Some resp; err := Some e; out := v; sent := sent |}
        | None =>
            let apiResp :=
              match apiResp' with
              | Pointer g => apiResponse.of_gval g
              | NotPointer => apiResp
              end in
            let '(v', err) := decode body v in
            match err with
            | Some e =>
                {| resp := Some resp; err := Some e; out := v';
                   sent := sent |}
            | None =>
                {| resp :=
                     Some {| Response.HttpResponse :=
                               Response.HttpResponse resp;
                             Response.Status := apiResponse.Status apiResp;
                             Response.More :=
                               apiResponse.More (apiResponse.Body apiResp);
                             Response.Offset :=
                               apiResponse.Offset
                                 (apiResponse.Body apiResp) |};
                   err := None; out := v'; sent := sent |}
            end
        end
  end.

Definition PostForm (c : Client) (ctx : Context) (url : string)
  (data : url.Values) (v : Result) : Outcome :=
  match NewRequest c ctx http.MethodPost url (Values_Encode data) with
  | inl err => {| resp := None; err := Some err; out := v; sent := [] |}
  | inr req =>
      Do c (http.Header_Set req "Content-Type"
                            "application/x-www-form-urlencoded") v
  end.

End Client.

(** ** measure.go *)

Module MeasureGetOptions.
Record t {Time : Type} := {
  StartDate : Time;
  EndDate : Time;
  LastUpdate : Time;
  Offset : Z
}.
Arguments t : clear implicits.
End MeasureGetOptions.

(** ** measure.go: [MeasureType] *)
Definition MeasureType := Z.

Definition MeasureTypeWeight : MeasureType := 1.
Definition MeasureTypeHeight : MeasureType := 4.
Definition MeasureTypeFatFreeMass : MeasureType := 5.
Definition MeasureTypeFatRatio : MeasureType := 6.
Definition MeasureTypeFatMassWeight : MeasureType := 8.
Definition MeasureTypeDiastolicBP : MeasureType := 9.
Definition MeasureTypeSystolicBP : MeasureType := 10.
Definition MeasureTypeHeartPulse : MeasureType := 11.
Definition MeasureTypeTemp : MeasureType := 12.
Definition MeasureTypeSpO2 : MeasureType := 54.
Definition MeasureTypeBodyTemp : MeasureType := 71.
Definition MeasureTypeSkinTemp : MeasureType := 73.
Definition MeasureTypeMuscleMass : MeasureType := 76.
Definition MeasureTypeHydration : MeasureType := 77.
Definition MeasureTypeBoneMass : MeasureType := 88.
Definition MeasureTypePWaveVel : MeasureType := 91.
Definition MeasureTypeVO2Max : MeasureType := 123.
Definition MeasureTypeQRSInterval : MeasureType := 135.
Definition MeasureTypePRInterval : MeasureType := 136.
Definition MeasureTypeQTInterval : MeasureType := 137.
Definition MeasureTypeCorrQTInterval : MeasureType := 138.
Definition MeasureTypeAtrialFib : MeasureType := 139.

(** [map[MeasureType]struct{}] *)
Definition validMeasureTypeValues : gmap Z unit :=
  list_to_map
    [ (MeasureTypeWeight, tt); (MeasureTypeHeight, tt);
      (MeasureTypeFatFreeMass, tt); (MeasureTypeFatRatio, tt);
      (MeasureTypeFatMassWeight, tt); (MeasureTypeDiastolicBP, tt);
      (MeasureTypeSystolicBP, tt); (MeasureTypeHeartPulse, tt);
      (MeasureTypeTemp, tt); (MeasureTypeSpO2, tt);
      (MeasureTypeBodyTemp, tt); (MeasureTypeSkinTemp, tt);
      (MeasureTypeMuscleMass, tt); (MeasureTypeHydration, tt);
      (MeasureTypeBoneMass, tt); (MeasureTypePWaveVel, tt);
      (MeasureTypeVO2Max, tt); (MeasureTypeQRSInterval, tt);
      (MeasureTypePRInterval, tt); (MeasureTypeQTInterval, tt);
      (MeasureTypeCorrQTInterval, tt); (MeasureTypeAtrialFib, tt) ].

(** [_, ok := validMeasureTypeValues[v]; return ok] *)
Definition MeasureType_IsValid (v : MeasureType) : bool :=
  bool_decide (is_Some (validMeasureTypeValues !! v)).

Definition AllMeasureTypes : list MeasureType :=
  [ MeasureTypeWeight; MeasureTypeHeight; MeasureTypeFatFreeMass;
    MeasureTypeFatRatio; MeasureTypeFatMassWeight; MeasureTypeDiastolicBP;
    MeasureTypeSystolicBP; MeasureTypeHeartPulse; MeasureTypeTemp;
    MeasureTypeSpO2; MeasureTypeBodyTemp; MeasureTypeSkinTemp;
    MeasureTypeMuscleMass; MeasureTypeHydration; MeasureTypeBoneMass;
    MeasureTypePWaveVel; MeasureTypeVO2Max; MeasureTypeQRSInterval;
    MeasureTypePRInterval; MeasureTypeQTInterval;
    MeasureTypeCorrQTInterval; MeasureTypeAtrialFib ].

(** ** measure.go: [MeasureCategory] *)
Definition MeasureCategory := Z.

Definition MeasureCategoryRealMeasure : MeasureCategory := 1.
Definition MeasureCategoryUserObjective : MeasureCategory := 2.

Definition validMeasureCategoryValues : gmap Z unit :=
  list_to_map
    [ (MeasureCategoryRealMeasure, tt); (MeasureCategoryUserObjective, tt) ].

Definition MeasureCategory_IsValid (v : MeasureCategory) : bool :=
  bool_decide (is_Some (validMeasureCategoryValues !! v)).

(** The loop shared by the four filters of measure.go:
    [var validValues []T; for _, v := range values { if !v.IsValid()
    { continue }; validValues = append(validValues, v) }]. *)
Definition filterLoop {T : Type} (IsValid : T -> bool) (values : list T)
  : list T :=
  fold_left
    (fun validValues v =>
       if negb (IsValid v) then validValues else validValues ++ [v])
    values [].

Definition filterValidMeasureTypeValues (values : list MeasureType)
  : list MeasureType :=
  filterLoop MeasureType_IsValid values.

(** [s = append(s, fmt.Sprintf("%d", v))] for each [v]. *)
Definition measureTypesToString (measureTypes : list MeasureType)
  : list string :=
  fold_left (fun s v => s ++ [Sprintf_d v]) measureTypes [].

(** ** measure.go: [ActivityField] *)
Definition ActivityField := string.

Definition ActivityFieldSteps : ActivityField := "steps".
Definition ActivityFieldDistance : ActivityField := "distance".
Definition ActivityFieldElevation : ActivityField := "elevation".
Definition ActivityFieldSoft : ActivityField := "soft".
Definition ActivityFieldModerate : ActivityField := "moderate".
Definition ActivityFieldIntense : ActivityField := "intense".
Definition ActivityFieldActive : ActivityField := "active".
Definition ActivityFieldCalories : ActivityField := "calories".
Definition ActivityFieldTotalCalories : ActivityField := "totalcalories".
Definition ActivityFieldHRAverage : ActivityField := "hr_average".
Definition ActivityFieldHRMin : ActivityField := "hr_min".
Definition ActivityFieldHRMax : ActivityField := "hr_max".
Definition ActivityFieldHRZone0 : ActivityField := "hr_zone_0".
Definition ActivityFieldHRZone1 : ActivityField := "hr_zone_1".
Definition ActivityFieldHRZone2 : ActivityField := "hr_zone_2".
Definition ActivityFieldHRZone3 : ActivityField := "hr_zone_3".

Definition AllActivityFields : list ActivityField :=
  [ ActivityFieldSteps; ActivityFieldDistance; ActivityFieldElevation;
    ActivityFieldSoft; ActivityFieldModerate; ActivityFieldIntense;
    ActivityFieldActive; ActivityFieldCalories; ActivityFieldTotalCalories;
    ActivityFieldHRAverage; ActivityFieldHRMin; ActivityFieldHRMax;
    ActivityFieldHRZone0; ActivityFieldHRZone1; ActivityFieldHRZone2;
    ActivityFieldHRZone3 ].

(** [map[ActivityField]struct{}] *)
Definition validActivityFieldValues : gmap string unit :=
  list_to_map
    [ (ActivityFieldSteps, tt); (ActivityFieldDistance, tt);
      (ActivityFieldElevation, tt); (ActivityFieldSoft, tt);
      (ActivityFieldModerate, tt); (ActivityFieldIntense, tt);
      (ActivityFieldActive, tt); (ActivityFieldCalories, tt);
      (ActivityFieldTotalCalories, tt); (ActivityFieldHRAverage, tt);
      (ActivityFieldHRMin, tt); (ActivityFieldHRMax, tt);
      (ActivityFieldHRZone0, tt); (ActivityFieldHRZone1, tt);
      (ActivityFieldHRZone2, tt); (ActivityFieldHRZone3, tt) ].

Definition ActivityField_IsValid (v : ActivityField) : bool :=
  bool_decide (is_Some (validActivityFieldValues !! v)).

Definition filterValidActivityFieldValues (values : list ActivityField)
  : list ActivityField :=
  filterLoop ActivityField_IsValid values.

(** [s = append(s, string(f))] for each [f], then [strings.Join(s, ",")]. *)
Definition joinActivityFields (fields : list ActivityField) : string :=
  strings.Join (fold_left (fun s f => s ++ [f]) fields []) ",".

(** ** measure.go: [IntradayActivityField] *)
Definition IntradayActivityField := string.

Definition IntradayActivityFieldSteps : IntradayActivityField := "steps".
Definition IntradayActivityFieldElevation : IntradayActivityField :=
  "elevation".
Definition IntradayActivityFieldCalories : IntradayActivityField :=
  "calories".
Definition IntradayActivityFieldDistance : IntradayActivityField :=
  "distance".
Definition IntradayActivityFieldStroke : IntradayActivityField := "stroke".
Definition IntradayActivityFieldPoolLap : IntradayActivityField :=
  "pool_lap".
Definition IntradayActivityFieldDuration : IntradayActivityField :=
  "duration".
Definition IntradayActivityFieldHeartRate : IntradayActivityField :=
  "heart_rate".
Definition IntradayActivityFieldSpO2Auto : IntradayActivityField :=
  "spo2_auto".

Definition AllIntradayActivityFields : list IntradayActivityField :=
  [ IntradayActivityFieldSteps; IntradayActivityFieldElevation;
    IntradayActivityFieldCalories; IntradayActivityFieldDistance;
    IntradayActivityFieldStroke; IntradayActivityFieldPoolLap;
    IntradayActivityFieldDuration; IntradayActivityFieldHeartRate;
    IntradayActivityFieldSpO2Auto ].

Definition validIntradayActivityFieldValues : gmap string unit :=
  list_to_map
    [ (IntradayActivityFieldSteps, tt); (IntradayActivityFieldElevation, tt);
      (IntradayActivityFieldCalories, tt);
      (IntradayActivityFieldDistance, tt);
      (IntradayActivityFieldStroke, tt); (IntradayActivityFieldPoolLap, tt);
      (IntradayActivityFieldDuration, tt);
      (IntradayActivityFieldHeartRate, tt);
      (IntradayActivityFieldSpO2Auto, tt) ].

Definition IntradayActivityField_IsValid (v : IntradayActivityField) : bool :=
  bool_decide (is_Some (validIntradayActivityFieldValues !! v)).

Definition filterValidIntradayActivityFieldValues
  (values : list IntradayActivityField) : list IntradayActivityField :=
  filterLoop IntradayActivityField_IsValid values.

Definition joinIntradayActivityFields (fields : list IntradayActivityField)
  : string :=
  strings.Join (fold_left (fun s f => s ++ [f]) fields []) ",".

(** ** measure.go: [WorkoutField] *)
Definition WorkoutField := string.

Definition WorkoutFieldCalories : WorkoutField := "calories".
Definition WorkoutFieldIntensity : WorkoutField := "intensity".
Definition WorkoutFieldManualDistance : WorkoutField := "manual_distance".
Definition WorkoutFieldManualCalories : WorkoutField := "manual_calories".
Definition WorkoutFieldHRAverage : WorkoutField := "hr_average".
Definition WorkoutFieldHRMin : WorkoutField := "hr_min".
Definition WorkoutFieldHRMax : WorkoutField := "hr_max".
Definition WorkoutFieldHRZone0 : WorkoutField := "hr_zone_0".
Definition WorkoutFieldHRZone1 : WorkoutField := "hr_zone_1".
Definition WorkoutFieldHRZone2 : WorkoutField := "hr_zone_2".
Definition WorkoutFieldHRZone3 : WorkoutField := "hr_zone_3".
Definition WorkoutFieldPauseDuration : WorkoutField := "pause_duration".
Definition WorkoutFieldAlgoPauseDuration : WorkoutField :=
  "algo_pause_duration".
Definition WorkoutFieldSpO2Average : WorkoutField := "spo2_average".
Definition WorkoutFieldSteps : WorkoutField := "steps".
Definition WorkoutFieldDistance : WorkoutField := "distance".
Definition WorkoutFieldElevation : WorkoutField := "elevation".
Definition WorkoutFieldPoolLaps : WorkoutField := "pool_laps".
Definition WorkoutFieldStrokes : WorkoutField := "strokes".
Definition WorkoutFieldPoolLength : WorkoutField := "pool_length".

Definition AllWorkoutFields : list WorkoutField :=
  [ WorkoutFieldCalories; WorkoutFieldIntensity; WorkoutFieldManualDistance;
    WorkoutFieldManualCalories; WorkoutFieldHRAverage; WorkoutFieldHRMin;
    WorkoutFieldHRMax; WorkoutFieldHRZone0; WorkoutFieldHRZone1;
    WorkoutFieldHRZone2; WorkoutFieldHRZone3; WorkoutFieldPauseDuration;
    WorkoutFieldAlgoPauseDuration; WorkoutFieldSpO2Average;
    WorkoutFieldSteps; WorkoutFieldDistance; WorkoutFieldElevation;
    WorkoutFieldPoolLaps; WorkoutFieldStrokes; WorkoutFieldPoolLength ].

Definition validWorkoutFieldValues : gmap string unit :=
  list_to_map
    [ (WorkoutFieldCalories, tt); (WorkoutFieldIntensity, tt);
      (WorkoutFieldManualDistance, tt); (WorkoutFieldManualCalories, tt);
      (WorkoutFieldHRAverage, tt); (WorkoutFieldHRMin, tt);
      (WorkoutFieldHRMax, tt); (WorkoutFieldHRZone0, tt);
      (WorkoutFieldHRZone1, tt); (WorkoutFieldHRZone2, tt);
      (WorkoutFieldHRZone3, tt); (WorkoutFieldPauseDuration, tt);
      (WorkoutFieldAlgoPauseDuration, tt); (WorkoutFieldSpO2Average, tt);
      (WorkoutFieldSteps, tt); (WorkoutFieldDistance, tt);
      (WorkoutFieldElevation, tt); (WorkoutFieldPoolLaps, tt);
      (WorkoutFieldStrokes, tt); (WorkoutFieldPoolLength, tt) ].

Definition WorkoutField_IsValid (v : WorkoutField) : bool :=
  bool_decide (is_Some (validWorkoutFieldValues !! v)).

Definition filterValidWorkoutFieldValues (values : list WorkoutField)
  : list WorkoutField :=
  filterLoop WorkoutField_IsValid values.

Definition joinWorkoutFields (fields : list WorkoutField) : string :=
  strings.Join (fold_left (fun s f => s ++ [f]) fields []) ",".

(** ** measure.go: the four calls

    Each call is split where the source calls [PostForm]: [X_form] is the
    code before it (validation, then the form), and [X] hands the form to
    [PostForm] together with the freshly allocated response struct. *)
Section Measure.
Context `{GoRuntime} `{net_url.Library} `{http.Library} `{Foreign}.
Context {Time : Type} `{TimeOps Time}.
Import MeasureGetOptions.

(** [return nil, nil, err] before anything is sent *)
Definition rejected (e : error) (v : Result) : Outcome :=
  {| resp := None; err := Some e; out := v; sent := [] |}.

Definition Getmeas_form (measureTypes : list MeasureType)
  (category : MeasureCategory) (opts : MeasureGetOptions.t Time)
  : error + url.Values :=
  if negb (MeasureCategory_IsValid category) then
    inl (errors_New "invalid category")
  else
    let measureTypes := filterValidMeasureTypeValues measureTypes in
    if (length measureTypes =? 0)%nat then
      inl (errors_New "need at least one measure type")
    else
      let form : url.Values :=
        list_to_map [ ("action", ["getmeas"]);
                      ("category", [Sprintf_d category]) ] in
      let form :=
        if (length measureTypes =? 1)%nat then
          url.Add form "meastype" (Sprintf_d (hd 0 measureTypes))
        else
          url.Add form "meastypes"
            (strings.Join (measureTypesToString measureTypes) ",") in
      let form :=
        if negb (IsZero (LastUpdate opts)) then
          url.Add form "lastupdate" (Sprintf_d (Unix (LastUpdate opts)))
        else if negb (IsZero (StartDate opts))
                && negb (IsZero (EndDate opts)) then
          url.Add
            (url.Add form "startdate" (Sprintf_d (Unix (StartDate opts))))
            "enddate" (Sprintf_d (Unix (EndDate opts)))
        else form in
      let form :=
        if 0 <? Offset opts
        then url.Add form "offset" (Sprintf_d (Offset opts)) else form in
      inr form.

Definition Getmeas (s : Client) (ctx : Context)
  (measureTypes : list MeasureType) (category : MeasureCategory)
  (opts : MeasureGetOptions.t Time) (measuresResp : Result) : Outcome :=
  match Getmeas_form measureTypes category opts with
  | inl e => rejected e measuresResp
  | inr form => PostForm s ctx "measure" form measuresResp
  end.

Definition Getactivity_form (fields : list ActivityField)
  (opts : MeasureGetOptions.t Time) : error + url.Values :=
  let fields := filterValidActivityFieldValues fields in
  if (length fields =? 0)%nat then
    inl (errors_New "need at least one activity field")
  else
    let form : url.Values :=
      list_to_map [ ("action", ["getactivity"]);
                    ("data_fields", [joinActivityFields fields]) ] in
    let form :=
      if negb (IsZero (LastUpdate opts)) then
        url.Add form "lastupdate" (Sprintf_d (Unix (LastUpdate opts)))
      else if negb (IsZero (StartDate opts))
              && negb (IsZero (EndDate opts)) then
        url.Add
          (url.Add form "startdateymd" (Format_ymd (StartDate opts)))
          "enddateymd" (Format_ymd (EndDate opts))
      else form in
    let form :=
      if 0 <? Offset opts
      then url.Add form "offset" (Sprintf_d (Offset opts)) else form in
    inr form.

Definition Getactivity (s : Client) (ctx : Context)
  (fields : list ActivityField) (opts : MeasureGetOptions.t Time)
  (activityResp : Result) : Outcome :=
  match Getactivity_form fields opts with
  | inl e => rejected e activityResp
  | inr form => PostForm s ctx "v2/measure" form activityResp
  end.

Definition Getintradayactivity_form (fields : list IntradayActivityField)
  (opts : MeasureGetOptions.t Time) : error + url.Values :=
  let fields := filterValidIntradayActivityFieldValues fields in
  if (length fields =? 0)%nat then
    inl (errors_New "need at least one intraday activity data field")
  else
    let form : url.Values :=
      list_to_map [ ("action", ["getintradayactivity"]);
                    ("data_fields", [joinIntradayActivityFields fields]) ]
    in
    let form :=
      if negb (IsZero (StartDate opts)) && negb (IsZero (EndDate opts))
      then
        url.Add
          (url.Add form "startdate" (Sprintf_d (Unix (StartDate opts))))
          "enddate" (Sprintf_d (Unix (EndDate opts)))
      else form in
    inr form.

Definition Getintradayactivity (s : Client) (ctx : Context)
  (fields : list IntradayActivityField) (opts : MeasureGetOptions.t Time)
  (intradayactivityResp : Result) : Outcome :=
  match Getintradayactivity_form fields opts with
  | inl e => rejected e intradayactivityResp
  | inr form => PostForm s ctx "v2/measure" form intradayactivityResp
  end.

Definition Getworkouts_form (fields : list WorkoutField)
  (opts : MeasureGetOptions.t Time) : error + url.Values :=
  let fields := filterValidWorkoutFieldValues fields in
  if (length fields =? 0)%nat then
    inl (errors_New "need at least one workout data field")
  else
    let form : url.Values :=
      list_to_map [ ("action", ["getworkouts"]);
                    ("data_fields", [joinWorkoutFields fields]) ] in
    let form :=
      if negb (IsZero (LastUpdate opts)) then
        url.Add form "lastupdate" (Sprintf_d (Unix (LastUpdate opts)))
      else if negb (IsZero (StartDate opts))
              && negb (IsZero (EndDate opts)) then
        url.Add
          (url.Add form "startdateymd" (Format_ymd (StartDate opts)))
          "enddateymd" (Format_ymd (EndDate opts))
      else form in
    let form :=
      if 0 <? Offset opts
      then url.Add form "offset" (Sprintf_d (Offset opts)) else form in
    inr form.

Definition Getworkouts (s : Client) (ctx : Context)
  (fields : list WorkoutField) (opts : MeasureGetOptions.t Time)
  (getworkoutsResp : Result) : Outcome :=
  match Getworkouts_form fields opts with
  | inl e => rejected e getworkoutsResp
  | inr form => PostForm s ctx "v2/measure" form getworkoutsResp
  end.

End Measure.

End withings.

(** * [golang.org/x/oauth2], the library that package [oauth2] wraps *)
Module x_oauth2.

Record Endpoint := {
  AuthURL : string;
  TokenURL : string;
  AuthStyle : Z
}.

Definition AuthStyleInParams : Z := 1.

Record Config := {
  ClientID : string;
  ClientSecret : string;
  Endpoint_ : Endpoint;
  RedirectURL : string;
  Scopes : list string
}.

Record Token {Time Raw : Type} := {
  AccessToken : string;
  TokenType : string;
  RefreshToken : string;
  Expiry : Time;
  raw : Raw
}.
Arguments Token : clear implicits.

(** An [AuthCodeOption] is a [setParam{k, v}]. *)
Inductive AuthCodeOption : Type :=
  | SetAuthURLParam (key value : string).

(** [func (p setParam) setValue(m url.Values) { m.Set(p.k, p.v) }] *)
Definition setValue (p : AuthCodeOption) (m : url.Values) : url.Values :=
  match p with SetAuthURLParam k v => url.Set_ m k v end.

(** The parameter an option sets. *)
Definition optKey (o : AuthCodeOption) : string :=
  match o with SetAuthURLParam k _ => k end.

(** The query of the consent URL: the library's own parameters, then the
    options in the order given. *)
Definition AuthCodeURL_query (c : Config) (state : string)
  (opts : list AuthCodeOption) : url.Values :=
  let v : url.Values :=
    list_to_map [ ("response_type", ["code"]);
                  ("client_id", [ClientID c]) ] in
  let v :=
    if negb (String.eqb (RedirectURL c) "")
    then url.Set_ v "redirect_uri" (RedirectURL c) else v in
  let v :=
    if (0 <? length (Scopes c))%nat
    then url.Set_ v "scope" (strings.Join (Scopes c) " ") else v in
  let v :=
    if negb (String.eqb state "") then url.Set_ v "state" state else v in
  fold_left (fun v opt => setValue opt v) opts v.

(** [Config.AuthCodeURL]: the endpoint, [?] or [&], the encoded query. *)
Definition AuthCodeURL `{GoRuntime} (c : Config) (state : string)
  (opts : list AuthCodeOption) : string :=
  AuthURL (Endpoint_ c)
  +:+ (if strings.Contains (AuthURL (Endpoint_ c)) "?" then "&" else "?")
  +:+ Values_Encode (AuthCodeURL_query c state opts).

End x_oauth2.

(** * Package [oauth2] *)
Module oauth2.
Import x_oauth2.

(** Package [oauth2/internal]: the token endpoint client. *)
Module internal.
Record Token {Time Raw : Type} := {
  AccessToken : string;
  TokenType : string;
  RefreshToken : string;
  Expiry : Time;
  Raw_ : Raw
}.
Arguments Token : clear implicits.

Class Library (Time Raw : Type) := {
  (* internal.RetrieveToken(ctx, clientID, clientSecret, tokenURL, v,
     authStyle); a nil token is None *)
  RetrieveToken : forall (ctx : Context) (clientID clientSecret : string)
                          (tokenURL : string) (v : url.Values) (authStyle : Z),
    error + option (Token Time Raw)
}.
End internal.

Definition Endpoint : x_oauth2.Endpoint :=
  {| AuthURL := "https://account.withings.com/oauth2_user/authorize2";
     TokenURL := "https://wbsapi.withings.net/v2/oauth2";
     AuthStyle := AuthStyleInParams |}.

Definition EndpointHIPAA : x_oauth2.Endpoint :=
  {| AuthURL := "https://account.us.withingsmed.com/oauth2_user/authorize2";
     TokenURL := "https://wbsapi.us.withingsmed.net/v2/oauth2";
     AuthStyle := AuthStyleInParams |}.

Definition ModeDemo : AuthCodeOption := SetAuthURLParam "mode" "demo".

(** [type Config struct { *oauth2.Config }] *)
Definition Config := x_oauth2.Config.

(** The options [AuthCodeURL] passes on: the comma separated scope first,
    when there are scopes, then the caller's. *)
Definition AuthCodeURL_opts (c : Config) (opts : list AuthCodeOption)
  : list AuthCodeOption :=
  if (0 <? length (Scopes c))%nat
  then [SetAuthURLParam "scope" (strings.Join (Scopes c) ",")] ++ opts
  else opts.

Definition AuthCodeURL `{GoRuntime} (c : Config) (state : string)
  (opts : list AuthCodeOption) : string :=
  x_oauth2.AuthCodeURL c state (AuthCodeURL_opts c opts).

(** The query parameters of the URL [AuthCodeURL] returns. *)
Definition AuthCodeURL_query (c : Config) (state : string)
  (opts : list AuthCodeOption) : url.Values :=
  x_oauth2.AuthCodeURL_query c state (AuthCodeURL_opts c opts).

Section Exchange.
Context {Time Raw : Type} `{internal.Library Time Raw}.

Definition tokenFromInternal (t : option (internal.Token Time Raw))
  : option (x_oauth2.Token Time Raw) :=
  match t with
  | None => None
  | Some t =>
      Some {| AccessToken := internal.AccessToken t;
              TokenType := internal.TokenType t;
              RefreshToken := internal.RefreshToken t;
              Expiry := internal.Expiry t;
              raw := internal.Raw_ t |}
  end.

Definition retrieveToken (ctx : Context) (c : Config) (v : url.Values)
  : error + option (x_oauth2.Token Time Raw) :=
  match internal.RetrieveToken ctx (ClientID c) (ClientSecret c)
          (TokenURL (Endpoint_ c)) v (AuthStyle (Endpoint_ c)) with
  | inl err => inl err
  | inr tk => inr (tokenFromInternal tk)
  end.

(** The form [Exchange] builds for the token endpoint. *)
Definition Exchange_values (c : Config) (code : string) : url.Values :=
  let v : url.Values :=
    list_to_map [ ("action", ["requesttoken"]);
                  ("grant_type", ["authorization_code"]);
                  ("code", [code]) ] in
  if negb (String.eqb (RedirectURL c) "")
  then url.Set_ v "redirect_uri" (RedirectURL c) else v.

Definition Exchange (ctx : Context) (c : Config) (code : string)
  : error + option (x_oauth2.Token Time Raw) :=
  retrieveToken ctx c (Exchange_values c code).
End Exchange.

End oauth2.

(** * A concrete setting

    One choice for everything the development leaves to the Go runtime and
    to the libraries, small enough to compute with: the calls can be run on
    inputs in it. *)
Module Sample.
Import mapstructure.

(** ASCII letters folded to lower case. *)
Definition lower (c : ascii) : ascii :=
  let n := nat_of_ascii c in
  if ((65 <=? n) && (n <=? 90))%nat then ascii_of_nat (n + 32) else c.

Fixpoint fold_eq (s t : string) : bool :=
  match s, t with
  | EmptyString, EmptyString => true
  | String a s', String b t' => Ascii.eqb (lower a) (lower b) && fold_eq s' t'
  | _, _ => false
  end.

Definition quote (s : string) : string :=
  String "034" s +:+ String "034" "".

(** [{"status":0,"body":{"more":true,"offset":3}}] *)
Definition page_body : string :=
  "{" +:+ quote "status" +:+ ":0," +:+ quote "body" +:+ ":{"
  +:+ quote "more" +:+ ":true," +:+ quote "offset" +:+ ":3}}".

(** [{"status":293,"body":{}}] *)
Definition failed_body : string :=
  "{" +:+ quote "status" +:+ ":293," +:+ quote "body" +:+ ":{}}".

(** [{"status":"ok"}] *)
Definition mistyped_body : string :=
  "{" +:+ quote "status" +:+ ":" +:+ quote "ok" +:+ "}".

(** The float64 with value [m * 2^e]. *)
Definition float (m : positive) (e : Z) : spec_float :=
  S754_finite false m e.

Definition page_map : jobject :=
  [ ("status", JFloat64 (S754_zero false));
    ("body", JMap [ ("more", JBool true);
                    ("offset", JFloat64 (float 6755399441055744 (-51))) ]) ].

Definition failed_map : jobject :=
  [ ("status", JFloat64 (float 5154875416805376 (-44))); ("body", JMap []) ].

Definition mistyped_map : jobject := [ ("status", JString "ok") ].

(** A decoder that knows the three bodies above and rejects the rest. *)
Definition parse (body : string) : string + jobject :=
  if String.eqb body page_body then inr page_map
  else if String.eqb body failed_body then inr failed_map
  else if String.eqb body mistyped_body then inr mistyped_map
  else inl "invalid character".

(** [key=value] pairs joined by [&]; the values of the sample need no
    escaping. *)
Definition encode (v : url.Values) : string :=
  strings.Join
    (flat_map (fun '(k, vs) => List.map (fun x => k +:+ "=" +:+ x) vs)
              (map_to_list v))
    "&".

#[export] Instance runtime : GoRuntime :=
  {| EqualFold := fold_eq;
     int64_unrepresentable := fun _ => - 2 ^ 63;
     json_parse := parse;
     Values_Encode := encode |}.

#[export] Instance url_library : net_url.Library :=
  {| net_url.url_Parse_other :=
       fun _ _ => inl (library_error "net/url" "invalid URL");
     net_url.url_String_other :=
       fun u => net_url.Scheme u +:+ "://" +:+ net_url.Host u
                +:+ net_url.Path u |}.

#[export] Instance http_library : http.Library :=
  {| http.NewRequestWithContext :=
       fun ctx method url body =>
         inr {| http.ctx := Some ctx; http.Method := method;
                http.URL := url; http.Header_ := ∅; http.Body := body |} |}.

(** No value of a kind other than bool, integer and struct. *)
#[export] Instance no_foreign : Foreign :=
  {| oval := Empty_set;
     decodeOther := fun _ _ x => match x with end |}.

(** Time as whole seconds since the Unix epoch, in UTC. *)
Definition pad (width : nat) (n : Z) : string :=
  let s := Sprintf_d n in
  String.concat "" (repeat "0" (width - String.length s)) +:+ s.

(** The civil date of a day number counted from 1970-01-01. *)
Definition civil (days : Z) : Z * Z * Z :=
  let z := days + 719468 in
  let era := z / 146097 in
  let doe := z - era * 146097 in
  let yoe := (doe - doe / 1460 + doe / 36524 - doe / 146096) / 365 in
  let doy := doe - (365 * yoe + yoe / 4 - yoe / 100) in
  let mp := (5 * doy + 2) / 153 in
  let d := doy - (153 * mp + 2) / 5 + 1 in
  let m := if mp <? 10 then mp + 3 else mp - 9 in
  let y := yoe + era * 400 + (if m <=? 2 then 1 else 0) in
  (y, m, d).

#[export] Instance utc_seconds : TimeOps Z :=
  {| IsZero := fun t => t =? -62135596800;
     Unix := fun t => t;
     Format_ymd := fun t =>
       let '(y, m, d) := civil (t / 86400) in
       pad 4 y +:+ "-" +:+ pad 2 m +:+ "-" +:+ pad 2 d |}.


(** An HTTP client that answers every request with the given body. *)
Definition answers (body : string) : http.Request -> error + http.Response :=
  fun _ => inr {| http.StatusCode := 200; http.RespBody := body |}.

(** An HTTP client that fails. *)
Definition unreachable : http.Request -> error + http.Response :=
  fun _ => inl (library_error "net/http" "connection refused").

Definition get (ctx : option Context) (url : string) : http.Request :=
  {| http.ctx := ctx; http.Method := "GET"; http.URL := url;
     http.Header_ := ∅; http.Body := "" |}.

Definition sample_config : oauth2.Config :=
  {| x_oauth2.ClientID := "client"; x_oauth2.ClientSecret := "secret";
     x_oauth2.Endpoint_ := oauth2.Endpoint;
     x_oauth2.RedirectURL := "https://example.com/callback";
     x_oauth2.Scopes := ["a"; "b"; "c"] |}.


(** 2023-11-14 22:13:20 UTC, and the two days around it *)
Definition dated_opts : withings.MeasureGetOptions.t Z :=
  {| withings.MeasureGetOptions.StartDate := 1699920000;
     withings.MeasureGetOptions.EndDate := 1700092800;
     withings.MeasureGetOptions.LastUpdate := 1700000000;
     withings.MeasureGetOptions.Offset := 0 |}.

(** [https://api.example.com/] *)
Definition example_base : net_url.URL :=
  {| net_url.Scheme := "https"; net_url.Opaque := ""; net_url.User := None;
     net_url.Host := "api.example.com"; net_url.Path := "/";
     net_url.RawPath := ""; net_url.OmitHost := false;
     net_url.ForceQuery := false; net_url.RawQuery := "";
     net_url.Fragment := ""; net_url.RawFragment := "" |}.

(** [https://api.example.com/v2]: no trailing slash *)
Definition misconfigured_base : net_url.URL :=
  {| net_url.Scheme := "https"; net_url.Opaque := ""; net_url.User := None;
     net_url.Host := "api.example.com"; net_url.Path := "/v2";
     net_url.RawPath := ""; net_url.OmitHost := false;
     net_url.ForceQuery := false; net_url.RawQuery := "";
     net_url.Fragment := ""; net_url.RawFragment := "" |}.

Definition misconfigured : withings.Client :=
  withings.newClient (answers page_body) misconfigured_base.

Definition example_client : withings.Client :=
  withings.newClient (answers page_body) example_base.

Definition offline : withings.Client := withings.NewClient unreachable.

Definition ok (body : string) : http.Response :=
  {| http.StatusCode := 200; http.RespBody := body |}.

(** [struct { Body struct { Offset int `json:"offset"`; UpdateTime int
    `json:"updatetime"` } `json:"body"` }], with the given values *)
Definition target (offset updatetime : Z) : Result :=
  Pointer
    (GStruct
       [ Field "Body" "body"
           (GStruct [ Field "Offset" "offset" (GInt offset);
                      Field "UpdateTime" "updatetime" (GInt updatetime) ]) ]).

Definition page_meta : withings.apiResponse.t :=
  {| withings.apiResponse.Status := 0;
     withings.apiResponse.Body :=
       {| withings.apiResponse.More := true;
          withings.apiResponse.Offset := 3 |} |}.

Definition failed_meta : withings.apiResponse.t :=
  {| withings.apiResponse.Status := 293;
     withings.apiResponse.Body :=
       {| withings.apiResponse.More := false;
          withings.apiResponse.Offset := 0 |} |}.

End Sample.

(** * More inputs *)
Module Cases.
Import mapstructure.



(** An HTTP client that answers every request with the given status code
    and body. *)
Definition answers_with (code : Z) (body : string)
  : http.Request -> error + http.Response :=
  fun _ => inr {| http.StatusCode := code; http.RespBody := body |}.

Definition unscoped_config : oauth2.Config :=
  {| x_oauth2.ClientID := "client"; x_oauth2.ClientSecret := "secret";
     x_oauth2.Endpoint_ := oauth2.Endpoint;
     x_oauth2.RedirectURL := ""; x_oauth2.Scopes := [] |}.

(** A token endpoint that knows one code. *)
Definition issued : oauth2.internal.Token Z string :=
  {| oauth2.internal.AccessToken := "ba3438ebe9bae6b642e429cc7c662bda";
     oauth2.internal.TokenType := "Bearer";
     oauth2.internal.RefreshToken := "93e82d64d8279589d506fffb067ed59d";
     oauth2.internal.Expiry := 1700010800;
     oauth2.internal.Raw_ := "userid=1234" |}.

#[export] Instance token_endpoint : oauth2.internal.Library Z string :=
  {| oauth2.internal.RetrieveToken :=
       fun _ _ _ _ v _ =>
         if bool_decide (v !! "code" = Some ["good"]) then inr (Some issued)
         else inl (library_error "oauth2" "invalid code") |}.

End Cases.

(** * Readings used to state the properties

    These definitions are not translations of the source: they say, in the
    terms of the protocol, what the source is compared with. *)
Section Readings.
Context `{GoRuntime} `{net_url.Library} `{http.Library}
        `{mapstructure.Foreign}.
Import withings mapstructure.

(** The last byte of a string. *)
Fixpoint last_char (s : string) : option ascii :=
  match s with
  | EmptyString => None
  | String c rest =>
      match last_char rest with Some d => Some d | None => Some c end
  end.

(** The prefix [scheme://host] of a printed URL. *)
Definition origin (u : net_url.URL) : string :=
  (if String.eqb (net_url.Scheme u) "" then ""
   else net_url.Scheme u +:+ ":")
  +:+ (if negb (String.eqb (net_url.Scheme u) "")
          || negb (String.eqb (net_url.Host u) "")
       then "//" +:+ net_url.Host u else "").

(** What [NewRequest] does once the URL is known. *)
Definition request_for (c : Client) (ctx : Context) (method url : string)
  (body : string) : error + http.Request :=
  match http.NewRequestWithContext ctx method url body with
  | inl err => inl err
  | inr req =>
      inr (if negb (String.eqb (UserAgent c) "")
           then http.Header_Set req "User-Agent" (UserAgent c) else req)
  end.

(** The error of a base URL without a trailing slash. *)
Definition errBaseURL (c : Client) : error :=
  fmt_Errorf "BaseURL must have a trailing slash, but %q does not"
             (net_url.String_ (BaseURL c)).

(** The float64 [f] is the integer [z]. *)
Definition float64_exact (f : spec_float) (z : Z) : Prop :=
  match f with
  | S754_zero _ => z = 0
  | S754_finite s m e =>
      if 0 <=? e then z = (if s then -1 else 1) * (Z.pos m * 2 ^ e)
      else z * 2 ^ (- e) = (if s then -1 else 1) * Z.pos m
  | _ => False
  end.

(** The metadata of an envelope, following the description of the protocol:
    [{status, body: {more, offset}}] read off the map field by field. An
    absent or null field keeps the zero value, a number becomes an
    integer, a boolean a boolean, and anything else does not fit. *)
Definition meta_int (o : option jvalue) : option Z :=
  match o with
  | None | Some JNil => Some 0
  | Some (JFloat64 f) => Some (float64_to_int64 f)
  | Some _ => None
  end.

Definition meta_bool (o : option jvalue) : option bool :=
  match o with
  | None | Some JNil => Some false
  | Some (JBool b) => Some b
  | Some _ => None
  end.

Definition meta_body (o : option jvalue) : option apiResponse.Body_t :=
  match o with
  | None | Some JNil =>
      Some {| apiResponse.More := false; apiResponse.Offset := 0 |}
  | Some (JMap b) =>
      match meta_bool (rawMapVal b "more"),
            meta_int (rawMapVal b "offset") with
      | Some mo, Some off =>
          Some {| apiResponse.More := mo; apiResponse.Offset := off |}
      | _, _ => None
      end
  | Some _ => None
  end.

Definition envelope_meta (m : jobject) : option apiResponse.t :=
  match meta_int (rawMapVal m "status"), meta_body (rawMapVal m "body") with
  | Some st, Some body =>
      Some {| apiResponse.Status := st; apiResponse.Body := body |}
  | _, _ => None
  end.

(** What decoding does to one field of a struct: the entry under the
    field's json name, if there is one, is decoded into the field. *)
Definition fill_field (m : jobject) (name : string) (f : field gval)
  : field gval * list derror :=
  match rawMapVal m (fieldName f) with
  | None => (f, [])
  | Some raw =>
      let '(v', e) :=
        mapstructure.decode (qualify name (fieldName f)) raw (Val f) in
      (Field (Name f) (Tag f) v', e)
  end.

End Readings.

(** * Properties *)

(** ** The filters of measure.go *)
Section FilterLoop.
Context {T : Type} (IsValid : T -> bool).

Lemma filterLoop_from (values acc : list T) :
  fold_left
    (fun validValues v =>
       if negb (IsValid v) then validValues else validValues ++ [v])
    values acc
  = acc ++ List.filter IsValid values.
Proof.
  revert acc. induction values as [|v values IH]; intros acc; simpl.
  - by rewrite app_nil_r.
  - rewrite IH. destruct (IsValid v); simpl; [|done].
    by rewrite <- app_assoc.
Qed.

Lemma filterLoop_filter (values : list T) :
  withings.filterLoop IsValid values = List.filter IsValid values.
Proof. unfold withings.filterLoop. by rewrite filterLoop_from. Qed.

Lemma filter_filter_same (values : list T) :
  List.filter IsValid (List.filter IsValid values)
  = List.filter IsValid values.
Proof.
  induction values as [|v values IH]; simpl; [done|].
  destruct (IsValid v) eqn:E; simpl; [|done]. by rewrite E, IH.
Qed.

Lemma filter_all_valid (values : list T) :
  forallb IsValid values = true -> List.filter IsValid values = values.
Proof.
  induction values as [|v values IH]; simpl; [done|].
  intros [Hv Hs]%andb_prop. rewrite Hv. by rewrite IH.
Qed.
End FilterLoop.

(** C10. [filterValidMeasureTypeValues] returns exactly the elements of its
    input that satisfy [IsValid], in their original order (it is the
    order-preserving filter by [IsValid]); every element of
    [AllMeasureTypes()] is valid, so the filter returns that list unchanged;
    and filtering twice is the same as filtering once. *)
Theorem filterValidMeasureTypeValues_filter :
  (forall values,
     withings.filterValidMeasureTypeValues values
     = List.filter withings.MeasureType_IsValid values)
  /\ forallb withings.MeasureType_IsValid withings.AllMeasureTypes = true
  /\ withings.filterValidMeasureTypeValues withings.AllMeasureTypes
     = withings.AllMeasureTypes
  /\ (forall values,
        withings.filterValidMeasureTypeValues
          (withings.filterValidMeasureTypeValues values)
        = withings.filterValidMeasureTypeValues values).
Proof.
  assert (Hall : forallb withings.MeasureType_IsValid withings.AllMeasureTypes
                 = true) by (vm_compute; reflexivity).
  split; [|split; [|split]].
  - intros values. apply filterLoop_filter.
  - exact Hall.
  - unfold withings.filterValidMeasureTypeValues.
    rewrite filterLoop_filter. by apply filter_all_valid.
  - intros values. unfold withings.filterValidMeasureTypeValues.
    rewrite !filterLoop_filter. apply filter_filter_same.
Qed.

(** ** The token exchange *)

(** Looking a key up in a form written as a literal. *)
Ltac form_lookup :=
  repeat (first [ rewrite lookup_insert_eq
                | rewrite lookup_insert_ne by discriminate
                | rewrite lookup_empty ]);
  try reflexivity.

(** C1. For every authorization code and every configuration, the form
    [Exchange] hands to the token endpoint has [action=requesttoken],
    [grant_type=authorization_code] and [code=<the code>]; it has
    [redirect_uri] exactly when the configured [RedirectURL] is not empty;
    [refresh_token] is not among the values of [grant_type], and there is no
    [refresh_token] parameter. *)
Theorem Exchange_form {Time Raw : Type} `{oauth2.internal.Library Time Raw}
  (ctx : Context) (c : oauth2.Config) (code : string) :
  let v := oauth2.Exchange_values c code in
  oauth2.Exchange ctx c code = oauth2.retrieveToken ctx c v
  /\ v !! "action" = Some ["requesttoken"]
  /\ v !! "grant_type" = Some ["authorization_code"]
  /\ v !! "code" = Some [code]
  /\ v !! "redirect_uri"
     = (if String.eqb (x_oauth2.RedirectURL c) "" then None
        else Some [x_oauth2.RedirectURL c])
  /\ ~ In "refresh_token" (default [] (v !! "grant_type"))
  /\ v !! "refresh_token" = None.
Proof.
  cbv zeta. unfold oauth2.Exchange, oauth2.Exchange_values, url.Set_.
  split; [reflexivity|].
  destruct (String.eqb (x_oauth2.RedirectURL c) ""); simpl;
    repeat split; form_lookup;
    intros [E|[]]; discriminate E.
Qed.

(** ** The consent URL *)

(** Options leave alone every key none of them sets. *)
Lemma setValue_other (opts : list x_oauth2.AuthCodeOption) (v : url.Values)
  (k : string) :
  Forall (fun o => x_oauth2.optKey o <> k) opts ->
  fold_left (fun v opt => x_oauth2.setValue opt v) opts v !! k = v !! k.
Proof.
  intros Hopts. revert v.
  induction Hopts as [|[k' x] opts Hk _ IH]; intros v; simpl; [done|].
  rewrite IH. unfold url.Set_. by rewrite lookup_insert_ne.
Qed.

Lemma append_inj_l (p a b : string) : p +:+ a = p +:+ b -> a = b.
Proof. induction p as [|c p IH]; simpl; [done|]. intros [= E]. auto. Qed.

(** Two or more elements joined by different separators give different
    strings, when the separators differ in their first byte. *)
Lemma Join_sep_differs (elems : list string) (c d : ascii) :
  (2 <= length elems)%nat -> c <> d ->
  strings.Join elems (String c "") <> strings.Join elems (String d "").
Proof.
  destruct elems as [|e [|e' rest]]; simpl; [lia|lia|].
  intros _ Hcd E. apply append_inj_l in E. simpl in E.
  injection E as E _. by apply Hcd.
Qed.

(** C2. For every configuration whose scope list is not empty,
    [AuthCodeURL] returns the authorization endpoint followed by the encoded
    query, and in that query the [scope] parameter is the scope values joined
    by commas in their original order, unless an option of the caller sets
    [scope] itself; with two or more scopes this value differs from the
    space-joined and from the plus-joined string, and for the scopes
    [a], [b], [c] it is [a,b,c]. Extra options only add the parameters they
    name: every other parameter is as without them, and [ModeDemo] adds
    [mode=demo] and changes nothing else. *)
Theorem AuthCodeURL_scope `{GoRuntime} (c : oauth2.Config) (state : string) :
  x_oauth2.Scopes c <> [] ->
  (forall opts,
     oauth2.AuthCodeURL c state opts
     = x_oauth2.AuthURL (x_oauth2.Endpoint_ c)
       +:+ (if strings.Contains (x_oauth2.AuthURL (x_oauth2.Endpoint_ c)) "?"
            then "&" else "?")
       +:+ Values_Encode (oauth2.AuthCodeURL_query c state opts))
  /\ (forall opts,
        Forall (fun o => x_oauth2.optKey o <> "scope") opts ->
        oauth2.AuthCodeURL_query c state opts !! "scope"
        = Some [strings.Join (x_oauth2.Scopes c) ","])
  /\ ((2 <= length (x_oauth2.Scopes c))%nat ->
      strings.Join (x_oauth2.Scopes c) ","
      <> strings.Join (x_oauth2.Scopes c) " "
      /\ strings.Join (x_oauth2.Scopes c) ","
         <> strings.Join (x_oauth2.Scopes c) "+")
  /\ (x_oauth2.Scopes c = ["a"; "b"; "c"] ->
      oauth2.AuthCodeURL_query c state [] !! "scope" = Some ["a,b,c"]
      /\ oauth2.AuthCodeURL_query c state [oauth2.ModeDemo] !! "scope"
         = Some ["a,b,c"])
  /\ (forall opts k,
        Forall (fun o => x_oauth2.optKey o <> k) opts ->
        oauth2.AuthCodeURL_query c state opts !! k
        = oauth2.AuthCodeURL_query c state [] !! k)
  /\ oauth2.AuthCodeURL_query c state [oauth2.ModeDemo]
     = <["mode" := ["demo"]]> (oauth2.AuthCodeURL_query c state []).
Proof.
  intros Hscopes.
  assert (Hlen : (0 <? length (x_oauth2.Scopes c))%nat = true).
  { destruct (x_oauth2.Scopes c); [done|reflexivity]. }
  assert (Hscope : forall opts,
             Forall (fun o => x_oauth2.optKey o <> "scope") opts ->
             oauth2.AuthCodeURL_query c state opts !! "scope"
             = Some [strings.Join (x_oauth2.Scopes c) ","]).
  { intros opts Hopts.
    unfold oauth2.AuthCodeURL_query, oauth2.AuthCodeURL_opts,
      x_oauth2.AuthCodeURL_query.
    rewrite Hlen. simpl fold_left. rewrite setValue_other by done.
    unfold url.Set_. by rewrite lookup_insert_eq. }
  split; [reflexivity|]. split; [exact Hscope|].
  split.
  { intros Htwo. split; by apply Join_sep_differs. }
  split.
  { intros Habc. rewrite !Hscope.
    - rewrite Habc. by split.
    - repeat constructor. discriminate.
    - constructor. }
  split.
  - intros opts k Hopts.
    unfold oauth2.AuthCodeURL_query, oauth2.AuthCodeURL_opts,
      x_oauth2.AuthCodeURL_query.
    rewrite Hlen. simpl fold_left. by rewrite setValue_other.
  - unfold oauth2.AuthCodeURL_query, oauth2.AuthCodeURL_opts,
      x_oauth2.AuthCodeURL_query.
    rewrite Hlen. reflexivity.
Qed.

(** ** The forms of the measure calls *)




Ltac form_cases :=
  repeat match goal with
         | |- context [if ?b then _ else _] => destruct b
         end;
  unfold url.Add; simpl; form_lookup.

Section Forms.
Context {Time : Type} `{TimeOps Time}.
Import withings withings.MeasureGetOptions.

End Forms.

Section Dates.
Context {Time : Type} `{TimeOps Time}.
Import withings withings.MeasureGetOptions.

End Dates.

(** ** Request construction *)

Lemma substring_last (s : string) (c : ascii) :
  String.substring (String.length s) 1 (String c s)
  = match last_char s with
    | Some d => String d ""
    | None => String c ""
    end.
Proof.
  revert c. induction s as [|d s IH]; intros c; [reflexivity|].
  change (String.substring (String.length (String d s)) 1 (String c (String d s)))
    with (String.substring (String.length s) 1 (String d s)).
  rewrite IH. simpl. by destruct (last_char s).
Qed.

Lemma HasSuffix_slash (s : string) :
  strings.HasSuffix s "/"
  = match last_char s with Some c => Ascii.eqb c "/" | None => false end.
Proof.
  unfold strings.HasSuffix. destruct s as [|c s]; [reflexivity|].
  change (String.length "/") with 1%nat.
  replace (String.length (String c s) - 1)%nat with (String.length s)
    by (simpl; lia).
  rewrite substring_last. simpl.
  destruct (last_char s) as [d|]; simpl.
  - destruct (Ascii.eqb_spec d "/") as [->|Hd]; [reflexivity|].
    destruct (Ascii.eqb d "/") eqn:E; [|reflexivity].
    by apply Ascii.eqb_eq in E.
  - destruct (Ascii.eqb c "/"); reflexivity.
Qed.

Lemma ends_with_slash (s : string) :
  strings.HasSuffix s "/" = true -> exists p, s = p +:+ "/".
Proof.
  rewrite HasSuffix_slash. induction s as [|c s IH]; simpl; [done|].
  destruct (last_char s) as [d|] eqn:E.
  - intros Hd. destruct (IH Hd) as [p ->]. by exists (String c p).
  - intros Hc%Ascii.eqb_eq. subst c.
    destruct s; [by exists ""|]. simpl in E. by destruct (last_char s).
Qed.

Lemma upto_last_slash_app (p : string) :
  net_url.upto_last_slash (p +:+ "/") = p +:+ "/".
Proof.
  induction p as [|c p IH]; [reflexivity|].
  simpl. rewrite IH. by destruct p.
Qed.

Lemma all_chars_app (f : ascii -> bool) (a b : string) :
  net_url.all_chars f (a +:+ b)
  = net_url.all_chars f a && net_url.all_chars f b.
Proof.
  induction a as [|c a IH]; simpl; [done|].
  rewrite IH. by rewrite andb_assoc.
Qed.

Lemma segments_nonempty (s : string) : net_url.segments s <> [].
Proof.
  destruct s as [|c s]; simpl; [done|].
  destruct (Ascii.eqb c "/"); [done|]. by destruct (net_url.segments s).
Qed.

Lemma segments_slash (a b : string) :
  net_url.segments (a +:+ String "/" b)
  = net_url.segments a ++ net_url.segments b.
Proof.
  induction a as [|c a IH]; [reflexivity|].
  simpl. rewrite IH.
  destruct (Ascii.eqb c "/"); [reflexivity|].
  pose proof (segments_nonempty a) as Hne.
  by destruct (net_url.segments a).
Qed.

Lemma append_assoc (a b c : string) : (a +:+ b) +:+ c = a +:+ (b +:+ c).
Proof.
  induction a as [|x a IH]; [done|].
  change (String x ((a +:+ b) +:+ c) = String x (a +:+ (b +:+ c))).
  by rewrite IH.
Qed.

Lemma no_dot_segment_app (p ref : string) :
  net_url.no_dot_segment (p +:+ "/") = true ->
  net_url.no_dot_segment ref = true ->
  net_url.no_dot_segment ((p +:+ "/") +:+ ref) = true.
Proof.
  unfold net_url.no_dot_segment.
  rewrite append_assoc. change ("/" +:+ ref) with (String "/" ref).
  rewrite !segments_slash, !forallb_app.
  intros [Hp _]%andb_prop Href. by rewrite Hp, Href.
Qed.

Lemma plain_path_app (p ref : string) :
  net_url.plain_path (p +:+ "/") = true ->
  net_url.plain_path ref = true ->
  net_url.plain_path ((p +:+ "/") +:+ ref) = true.
Proof.
  unfold net_url.plain_path.
  intros [Hc Hd]%andb_prop [Hc' Hd']%andb_prop.
  rewrite all_chars_app, Hc, Hc'. simpl.
  by apply no_dot_segment_app.
Qed.

Lemma prefix_slash_app (p r : string) :
  strings.HasPrefix p "/" = true -> strings.HasPrefix (p +:+ r) "/" = true.
Proof.
  destruct p as [|a p]; [done|].
  change (String a p +:+ r) with (String a (p +:+ r)). simpl.
  by rewrite !andb_true_r.
Qed.

Section Requests.
Context `{GoRuntime} `{net_url.Library} `{http.Library}
        `{mapstructure.Foreign}.
Import withings.

Lemma NewRequest_plain (c : Client) (ctx : Context)
  (method ref body : string) :
  strings.HasSuffix (net_url.Path (BaseURL c)) "/" = true ->
  net_url.plain_base (BaseURL c) = true ->
  net_url.plain_ref ref = true ->
  NewRequest c ctx method ref body
  = request_for c ctx method
      (origin (BaseURL c) +:+ (net_url.Path (BaseURL c) +:+ ref)) body.
Proof.
  intros Hslash Hbase Href. unfold NewRequest, request_for.
  rewrite Hslash. simpl negb. cbv iota.
  unfold net_url.Parse. rewrite Hbase, Href. simpl andb. cbv iota.
  destruct (ends_with_slash _ Hslash) as [p Hp].
  rewrite Hp, upto_last_slash_app.
  unfold net_url.String_.
  assert (Hres : net_url.plain_base
            {| net_url.Scheme := net_url.Scheme (BaseURL c);
               net_url.Opaque := "";
               net_url.User := net_url.User (BaseURL c);
               net_url.Host := net_url.Host (BaseURL c);
               net_url.Path := (p +:+ "/") +:+ ref;
               net_url.RawPath := ""; net_url.OmitHost := false;
               net_url.ForceQuery := false; net_url.RawQuery := "";
               net_url.Fragment := ""; net_url.RawFragment := "" |}
          = true).
  { unfold net_url.plain_base in *. simpl. rewrite Hp in Hbase.
    apply andb_prop in Hbase as [Hbase _].
    apply andb_prop in Hbase as [Hbase _].
    apply andb_prop in Hbase as [Hbase Hplain].
    apply andb_prop in Hbase as [Hbase Hprefix].
    apply andb_prop in Hbase as [Hbase Hhost].
    apply andb_prop in Hbase as [_ Huser].
    rewrite Huser, Hhost. simpl.
    unfold net_url.plain_ref in Href.
    apply andb_prop in Href as [_ Href].
    rewrite (plain_path_app _ _ Hplain Href).
    pose proof (prefix_slash_app _ ref Hprefix) as Hpre.
    simpl in Hpre. by rewrite Hpre. }
  rewrite Hres. simpl. unfold origin. by rewrite !append_assoc.
Qed.
End Requests.

Section Transport.
Context `{GoRuntime} `{net_url.Library} `{http.Library}
        `{mapstructure.Foreign}.
Context {Time : Type} `{TimeOps Time}.
Import withings.

Lemma PostForm_no_slash (c : Client) (ctx : Context) (url : string)
  (data : url.Values) (v : mapstructure.Result) :
  strings.HasSuffix (net_url.Path (BaseURL c)) "/" = false ->
  PostForm c ctx url data v
  = {| resp := None; err := Some (errBaseURL c); out := v; sent := [] |}.
Proof.
  intros Hslash. unfold PostForm, NewRequest. by rewrite Hslash.
Qed.

(** C5. When the path of [BaseURL] does not end in [/], [NewRequest]
    returns an error, and so does every call that goes through
    [PostForm], the four measure calls included, without giving any
    request to the HTTP client. With the base
    [https://api.example.com/] and the relative path [v2/resource] the
    request is made for [https://api.example.com/v2/resource]; more
    generally, with a plain base that ends in [/] and a plain relative
    path the request is made for the base followed by the path. *)
Theorem NewRequest_BaseURL (c : Client) (ctx : Context) :
  (strings.HasSuffix (net_url.Path (BaseURL c)) "/" = false ->
   (forall method urlStr body,
      NewRequest c ctx method urlStr body = inl (errBaseURL c))
   /\ (forall url data v,
         PostForm c ctx url data v
         = {| resp := None; err := Some (errBaseURL c); out := v;
              sent := [] |})
   /\ (forall types category fields ifields wfields
              (opts : MeasureGetOptions.t Time) v,
         (let r := Getmeas c ctx types category opts v in
          is_Some (err r) /\ sent r = [])
         /\ (let r := Getactivity c ctx fields opts v in
             is_Some (err r) /\ sent r = [])
         /\ (let r := Getintradayactivity c ctx ifields opts v in
             is_Some (err r) /\ sent r = [])
         /\ (let r := Getworkouts c ctx wfields opts v in
             is_Some (err r) /\ sent r = [])))
  /\ (BaseURL c = Sample.example_base ->
      forall method body,
        NewRequest c ctx method "v2/resource" body
        = request_for c ctx method "https://api.example.com/v2/resource"
            body)
  /\ (strings.HasSuffix (net_url.Path (BaseURL c)) "/" = true ->
      net_url.plain_base (BaseURL c) = true ->
      forall method ref body,
        net_url.plain_ref ref = true ->
        NewRequest c ctx method ref body
        = request_for c ctx method
            (origin (BaseURL c) +:+ (net_url.Path (BaseURL c) +:+ ref))
            body).
Proof.
  split; [|split].
  - intros Hslash. split; [|split].
    + intros method urlStr body. unfold NewRequest. by rewrite Hslash.
    + intros url data v. by apply PostForm_no_slash.
    + intros types category fields ifields wfields opts v.
      unfold Getmeas, Getactivity, Getintradayactivity, Getworkouts.
      repeat split;
        match goal with
        | |- context [match ?f with inl _ => _ | inr _ => _ end] =>
            destruct f
        end;
        rewrite ?PostForm_no_slash by done; simpl; eauto.
  - intros Hbase method body.
    rewrite NewRequest_plain; rewrite ?Hbase; reflexivity.
  - intros Hslash Hbase method ref body Href. by apply NewRequest_plain.
Qed.

(** C6. When the HTTP call of [BareDo] fails and the context of the
    request is done, the error returned is the error of the context; when
    the context is not done, it is the error of the HTTP call, unchanged.
    [Do] hands either on with the target untouched. *)
Theorem BareDo_transport_error (c : Client) (req : http.Request)
  (e : error) :
  client c req = inl e ->
  (forall reason,
     http.Request_Context req = Some (ctxDone reason) ->
     BareDo c req = (None, Some reason, [req])
     /\ forall v, Do c req v
                  = {| resp := None; err := Some reason; out := v;
                       sent := [req] |})
  /\ (http.Request_Context req = Some ctxActive ->
      BareDo c req = (None, Some e, [req])
      /\ forall v, Do c req v
                   = {| resp := None; err := Some e; out := v;
                        sent := [req] |}).
Proof.
  intros Hfail. split.
  - intros reason Hctx.
    assert (HB : BareDo c req = (None, Some reason, [req])).
    { unfold BareDo. by rewrite Hctx, Hfail. }
    split; [exact HB|]. intros v. unfold Do. by rewrite HB.
  - intros Hctx.
    assert (HB : BareDo c req = (None, Some e, [req])).
    { unfold BareDo. by rewrite Hctx, Hfail. }
    split; [exact HB|]. intros v. unfold Do. by rewrite HB.
Qed.
End Transport.

(** ** The envelope *)

Section Envelope.
Context `{GoRuntime} `{net_url.Library} `{http.Library}
        `{mapstructure.Foreign}.
Import withings mapstructure.

Lemma float64_to_int64_exact (f : spec_float) (z : Z) :
  float64_exact f z -> - 2 ^ 63 <= z < 2 ^ 63 -> float64_to_int64 f = z.
Proof.
  destruct f as [s| | |s m e]; simpl; [auto|done|done|].
  intros Hz Hrange.
  assert (Hmag : (if s then - Z.shiftl (Z.pos m) e else Z.shiftl (Z.pos m) e)
                 = z).
  { destruct (Z.leb_spec 0 e) as [He|He].
    - rewrite Z.shiftl_mul_pow2 by done. destruct s; lia.
    - rewrite Z.shiftl_div_pow2 by lia.
      assert (0 < 2 ^ (- e)) by (apply Z.pow_pos_nonneg; lia).
      destruct s.
      + replace (Z.pos m) with ((- z) * 2 ^ (- e)) by lia.
        rewrite Z.div_mul by lia. lia.
      + replace (Z.pos m) with (z * 2 ^ (- e)) by lia.
        by rewrite Z.div_mul by lia. }
  rewrite Hmag.
  destruct (Z.leb_spec (- 2 ^ 63) z); [|lia].
  destruct (Z.ltb_spec z (2 ^ 63)); [done|lia].
Qed.

Lemma of_to_gval (a : apiResponse.t) :
  apiResponse.of_gval (apiResponse.to_gval a) = a.
Proof. by destruct a as [st [mo off]]. Qed.

(** Decoding a map into [apiResponse] gives the metadata read field by
    field, and fails exactly when that reading does. *)
Lemma decode_apiResponse (m : jobject) :
  match envelope_meta m with
  | Some a =>
      withings.decode m (Pointer (apiResponse.to_gval apiResponse.zero))
      = (Pointer (apiResponse.to_gval a), None)
  | None =>
      exists r e,
        withings.decode m (Pointer (apiResponse.to_gval apiResponse.zero))
        = (r, Some e)
  end.
Proof.
  unfold envelope_meta, meta_body, meta_int, meta_bool, withings.decode,
    mapstructure.Decode.
  simpl. unfold fieldName, qualify. simpl.
  destruct (rawMapVal m "status") as [[|?|?|?|?|?]|];
    destruct (rawMapVal m "body") as [[|?|?|?|?|inner]|]; simpl;
    try (destruct (rawMapVal inner "more") as [[|?|?|?|?|?]|];
         destruct (rawMapVal inner "offset") as [[|?|?|?|?|?]|]; simpl);
    eauto.
Qed.
Lemma decode_struct (name : string) (m : jobject) (fs : list (field gval)) :
  mapstructure.decode name (JMap m) (GStruct fs)
  = (GStruct (List.map (fun f => fst (fill_field m name f)) fs),
     flat_map (fun f => snd (fill_field m name f)) fs).
Proof.
  simpl.
  match goal with
  | |- (let '(_, _) := ?go fs in _) = _ =>
      enough (E : go fs
                  = (List.map (fun f => fst (fill_field m name f)) fs,
                     flat_map (fun f => snd (fill_field m name f)) fs))
        by (rewrite E; reflexivity)
  end.
  induction fs as [|f fs IH]; [reflexivity|].
  rewrite IH. simpl. unfold fill_field.
  destruct (rawMapVal m (fieldName f)) as [raw|]; [|reflexivity].
  by destruct (mapstructure.decode _ raw (Val f)).
Qed.

Lemma fill_field_empty (name : string) (f : field gval) :
  fill_field [] name f = (f, []).
Proof. reflexivity. Qed.



Lemma BareDo_response (c : Client) (req : http.Request) (h : http.Response) :
  client c req = inr h ->
  BareDo c req = (Some (newResponse h), None, [req]).
Proof. intros Hok. unfold BareDo. simpl. by rewrite Hok. Qed.

(** [Do], once the HTTP call has answered and the body has been decoded
    into the map [m] (or was blank, and [m] is the empty map). *)
Lemma Do_decoded (c : Client) (req : http.Request) (h : http.Response)
  (m : jobject) (e : option error) (v : Result) :
  client c req = inr h ->
  json.Decode (http.RespBody h) [] = (m, e) ->
  e = None \/ e = Some io_EOF ->
  Do c req v
  = match envelope_meta m with
    | None =>
        {| resp := Some (newResponse h);
           err := snd (withings.decode m
                         (Pointer (apiResponse.to_gval apiResponse.zero)));
           out := v; sent := [req] |}
    | Some a =>
        match withings.decode m v with
        | (v', Some e') =>
            {| resp := Some (newResponse h); err := Some e'; out := v';
               sent := [req] |}
        | (v', None) =>
            {| resp :=
                 Some {| Response.HttpResponse := h;
                         Response.Status := apiResponse.Status a;
                         Response.More :=
                           apiResponse.More (apiResponse.Body a);
                         Response.Offset :=
                           apiResponse.Offset (apiResponse.Body a) |};
               err := None; out := v'; sent := [req] |}
        end
    end.
Proof.
  intros Hok Hjson He. unfold Do.
  rewrite (BareDo_response _ _ _ Hok). simpl Response.HttpResponse.
  rewrite Hjson.
  assert (Hskip : match e with
                  | Some e0 => negb (is_EOF e0)
                  | None => false
                  end = false) by (destruct He; subst e; reflexivity).
  rewrite Hskip.
  pose proof (decode_apiResponse m) as Hmeta.
  destruct (envelope_meta m) as [a|].
  - rewrite Hmeta, of_to_gval.
    by destruct (withings.decode m v) as [v' [e'|]].
  - destruct Hmeta as (r & e' & ->). reflexivity.
Qed.
(** C3. When the HTTP call answers with a body that decodes to the map
    [m], and [m] is a well-formed envelope (a [status] that, if present, is
    a number, and a [body] that, if present, is an object whose [more] is a
    boolean and whose [offset] is a number), then [Do] fills the metadata
    and the target from that one map: it returns no error, whatever the
    status is, a response whose [Status], [More] and [Offset] are those
    of the map, and the target as decoded from [m], each field of a struct
    from the entry under its json name. A field the map has is carried
    over exactly (an integer-valued number as that integer); a field it
    lacks is 0, false, 0. *)
Theorem Do_envelope (c : Client) (req : http.Request) (h : http.Response)
  (m : jobject) (a : apiResponse.t) :
  client c req = inr h ->
  json.Decode (http.RespBody h) [] = (m, None) ->
  envelope_meta m = Some a ->
  (forall v v',
     withings.decode m v = (v', None) ->
     Do c req v
     = {| resp :=
            Some {| Response.HttpResponse := h;
                    Response.Status := apiResponse.Status a;
                    Response.More := apiResponse.More (apiResponse.Body a);
                    Response.Offset :=
                      apiResponse.Offset (apiResponse.Body a) |};
          err := None; out := v'; sent := [req] |})
  /\ (forall fs,
        fst (withings.decode m (Pointer (GStruct fs)))
        = Pointer (GStruct (List.map (fun f => fst (fill_field m "" f)) fs)))
  /\ (forall f z,
        MapIndex m "status" = Some (JFloat64 f) ->
        float64_exact f z -> - 2 ^ 63 <= z < 2 ^ 63 ->
        apiResponse.Status a = z)
  /\ (rawMapVal m "status" = None -> apiResponse.Status a = 0)
  /\ (forall b,
        MapIndex m "body" = Some (JMap b) ->
        (forall x, MapIndex b "more" = Some (JBool x) ->
                   apiResponse.More (apiResponse.Body a) = x)
        /\ (rawMapVal b "more" = None ->
            apiResponse.More (apiResponse.Body a) = false)
        /\ (forall f z,
              MapIndex b "offset" = Some (JFloat64 f) ->
              float64_exact f z -> - 2 ^ 63 <= z < 2 ^ 63 ->
              apiResponse.Offset (apiResponse.Body a) = z)
        /\ (rawMapVal b "offset" = None ->
            apiResponse.Offset (apiResponse.Body a) = 0))
  /\ (rawMapVal m "body" = None ->
      apiResponse.More (apiResponse.Body a) = false
      /\ apiResponse.Offset (apiResponse.Body a) = 0).
Proof.
  intros Hok Hjson Hmeta.
  split; [|split].
  { intros v v' Hv.
    rewrite (Do_decoded c req h m None v Hok Hjson (or_introl eq_refl)).
    by rewrite Hmeta, Hv. }
  { intros fs. unfold withings.decode, mapstructure.Decode.
    by rewrite decode_struct. }
  unfold envelope_meta in Hmeta.
  destruct (meta_int (rawMapVal m "status")) as [st|] eqn:Est; [|done].
  destruct (meta_body (rawMapVal m "body")) as [body|] eqn:Eb; [|done].
  injection Hmeta as <-. simpl.
  split; [|split; [|split]].
  - intros f z Hf Hz Hrange. unfold rawMapVal in Est. rewrite Hf in Est.
    injection Est as <-. by apply float64_to_int64_exact.
  - intros Hnone. rewrite Hnone in Est. by injection Est as <-.
  - intros b Hb. unfold rawMapVal in Eb at 1. rewrite Hb in Eb. simpl in Eb.
    destruct (meta_bool (rawMapVal b "more")) as [mo|] eqn:Emo; [|done].
    destruct (meta_int (rawMapVal b "offset")) as [off|] eqn:Eoff; [|done].
    injection Eb as <-. simpl.
    split; [|split; [|split]].
    + intros x Hx. unfold rawMapVal in Emo. rewrite Hx in Emo.
      by injection Emo as <-.
    + intros Hnone. rewrite Hnone in Emo. by injection Emo as <-.
    + intros f z Hf Hz Hrange. unfold rawMapVal in Eoff.
      rewrite Hf in Eoff. injection Eoff as <-.
      by apply float64_to_int64_exact.
    + intros Hnone. rewrite Hnone in Eoff. by injection Eoff as <-.
  - intros Hnone. rewrite Hnone in Eb. by injection Eb as <-.
Qed.


(** [Do] with a target that is not a pointer, [nil] included: once the
    metadata have been decoded, the decoder refuses the target. *)
Remark Do_without_target (c : Client) (req : http.Request)
  (h : http.Response) (m : jobject) (e : option error) :
  client c req = inr h ->
  json.Decode (http.RespBody h) [] = (m, e) ->
  e = None \/ e = Some io_EOF ->
  is_Some (envelope_meta m) ->
  Do c req NotPointer
  = {| resp := Some (newResponse h);
       err := Some (errors_New "result must be a pointer");
       out := NotPointer; sent := [req] |}.
Proof.
  intros Hok Hjson He [a Hmeta].
  rewrite (Do_decoded c req h m e _ Hok Hjson He). by rewrite Hmeta.
Qed.
End Envelope.

(** * Further properties of the code *)

(** ** The enumerations of measure.go *)

(** A set written as a map to [struct{}] holds exactly its listed keys. *)
Lemma unit_map_lookup `{Countable K} (keys : list K) (v : K) :
  is_Some ((list_to_map ((fun k => (k, tt)) <$> keys) : gmap K unit) !! v)
  <-> In v keys.
Proof.
  induction keys as [|k keys IH]; simpl.
  - rewrite lookup_empty. split; [by intros [? ?]|done].
  - rewrite lookup_insert. case_decide as Hk.
    + subst. split; [by left|by eexists].
    + rewrite IH. split; [by right|]. by intros [?|?].
Qed.

Lemma filter_count {T : Type} (eq_dec : forall x y : T, {x = y} + {x <> y})
  (IsValid : T -> bool) (values : list T) (v : T) :
  count_occ eq_dec (List.filter IsValid values) v
  = if IsValid v then count_occ eq_dec values v else 0%nat.
Proof.
  induction values as [|x values IH]; simpl; [by destruct (IsValid v)|].
  destruct (IsValid x) eqn:Ex; simpl; destruct (eq_dec x v) as [->|Hne];
    rewrite IH; try reflexivity.
  - by rewrite Ex.
  - by rewrite Ex.
Qed.

(** X1. The filters of activity fields, intraday activity fields and
    workout fields keep exactly the valid values, in their order and as
    often as they occur; each leaves the list of all values of its
    enumeration unchanged, and filtering twice is filtering once. *)
Theorem field_filters :
  (forall values,
     withings.filterValidActivityFieldValues values
     = List.filter withings.ActivityField_IsValid values)
  /\ (forall values,
        withings.filterValidIntradayActivityFieldValues values
        = List.filter withings.IntradayActivityField_IsValid values)
  /\ (forall values,
        withings.filterValidWorkoutFieldValues values
        = List.filter withings.WorkoutField_IsValid values)
  /\ withings.filterValidActivityFieldValues withings.AllActivityFields
     = withings.AllActivityFields
  /\ withings.filterValidIntradayActivityFieldValues
       withings.AllIntradayActivityFields
     = withings.AllIntradayActivityFields
  /\ withings.filterValidWorkoutFieldValues withings.AllWorkoutFields
     = withings.AllWorkoutFields
  /\ (forall values,
        withings.filterValidActivityFieldValues
          (withings.filterValidActivityFieldValues values)
        = withings.filterValidActivityFieldValues values)
  /\ (forall values,
        withings.filterValidIntradayActivityFieldValues
          (withings.filterValidIntradayActivityFieldValues values)
        = withings.filterValidIntradayActivityFieldValues values)
  /\ (forall values,
        withings.filterValidWorkoutFieldValues
          (withings.filterValidWorkoutFieldValues values)
        = withings.filterValidWorkoutFieldValues values)
  /\ (forall values v,
        count_occ string_dec (withings.filterValidActivityFieldValues values) v
        = if withings.ActivityField_IsValid v
          then count_occ string_dec values v else 0%nat)
  /\ (forall values v,
        count_occ Z.eq_dec (withings.filterValidMeasureTypeValues values) v
        = if withings.MeasureType_IsValid v
          then count_occ Z.eq_dec values v else 0%nat).
Proof.
  unfold withings.filterValidActivityFieldValues,
    withings.filterValidIntradayActivityFieldValues,
    withings.filterValidWorkoutFieldValues,
    withings.filterValidMeasureTypeValues.
  repeat split; intros; rewrite ?filterLoop_filter;
    try apply filter_filter_same; try apply filter_count;
    try reflexivity; apply filter_all_valid; vm_compute; reflexivity.
Qed.

(** X2. In each enumeration [IsValid] holds exactly for the values that the
    matching [All...] function lists, no value is listed twice, and a
    category is valid exactly when it is 1 or 2. *)
Theorem IsValid_All :
  (forall v, withings.MeasureType_IsValid v = true
             <-> In v withings.AllMeasureTypes)
  /\ (forall v, withings.ActivityField_IsValid v = true
                <-> In v withings.AllActivityFields)
  /\ (forall v, withings.IntradayActivityField_IsValid v = true
                <-> In v withings.AllIntradayActivityFields)
  /\ (forall v, withings.WorkoutField_IsValid v = true
                <-> In v withings.AllWorkoutFields)
  /\ (forall v, withings.MeasureCategory_IsValid v = true
                <-> v = 1 \/ v = 2)
  /\ List.NoDup withings.AllMeasureTypes
  /\ List.NoDup withings.AllActivityFields
  /\ List.NoDup withings.AllIntradayActivityFields
  /\ List.NoDup withings.AllWorkoutFields.
Proof.
  split; [|split; [|split; [|split; [|split]]]].
  - intros v. unfold withings.MeasureType_IsValid.
    rewrite bool_decide_eq_true.
    apply (unit_map_lookup withings.AllMeasureTypes).
  - intros v. unfold withings.ActivityField_IsValid.
    rewrite bool_decide_eq_true.
    apply (unit_map_lookup withings.AllActivityFields).
  - intros v. unfold withings.IntradayActivityField_IsValid.
    rewrite bool_decide_eq_true.
    apply (unit_map_lookup withings.AllIntradayActivityFields).
  - intros v. unfold withings.WorkoutField_IsValid.
    rewrite bool_decide_eq_true.
    apply (unit_map_lookup withings.AllWorkoutFields).
  - intros v. unfold withings.MeasureCategory_IsValid.
    rewrite bool_decide_eq_true.
    rewrite (unit_map_lookup [withings.MeasureCategoryRealMeasure;
                              withings.MeasureCategoryUserObjective]).
    simpl. unfold withings.MeasureCategoryRealMeasure,
      withings.MeasureCategoryUserObjective. intuition.
  - repeat split; apply NoDup_ListNoDup;
      refine (bool_decide_unpack _ _); vm_compute; exact I.
Qed.

(** ** What the forms of the measure calls hold *)

Lemma Join_singleton (e sep : string) : strings.Join [e] sep = e.
Proof. reflexivity. Qed.

(** A key of a form built by insertions is one of the inserted keys. *)
Ltac form_key H :=
  unfold url.Add, url.Set_ in H; simpl in H;
  repeat (rewrite lookup_insert in H;
          let E := fresh "E" in
          destruct (decide _) as [E|E] in H;
          [ try (rewrite <- E in *; clear E);
            injection H as <-;
            split; [eexists; form_lookup | simpl; tauto]
          | ]);
  rewrite lookup_empty in H; discriminate H.

Section FormContents.
Context {Time : Type} `{TimeOps Time}.
Import withings withings.MeasureGetOptions.



(** X5. [Getintradayactivity] looks at the start and end dates only: the
    form is the same whatever [LastUpdate] and [Offset] are, and it never
    holds [lastupdate] or [offset]. *)
Theorem Getintradayactivity_ignores (fields : list IntradayActivityField)
  (start end_ lastUpdate lastUpdate' : Time) (offset offset' : Z) :
  Getintradayactivity_form fields
    {| StartDate := start; EndDate := end_; LastUpdate := lastUpdate;
       Offset := offset |}
  = Getintradayactivity_form fields
      {| StartDate := start; EndDate := end_; LastUpdate := lastUpdate';
         Offset := offset' |}
  /\ match Getintradayactivity_form fields
             {| StartDate := start; EndDate := end_;
                LastUpdate := lastUpdate; Offset := offset |} with
     | inl _ => True
     | inr form => form !! "lastupdate" = None /\ form !! "offset" = None
     end.
Proof.
  split; [reflexivity|]. unfold Getintradayactivity_form.
  destruct (length (filterValidIntradayActivityFieldValues fields) =? 0)%nat;
    [done|]. simpl. split; form_cases.
Qed.



(** X8. A form never holds a parameter twice, and holds no parameter but
    those of its call: every key of a form has exactly one value and is
    one of the names the call uses. *)
Theorem forms_single_valued (opts : MeasureGetOptions.t Time) :
  (forall types category,
     match Getmeas_form types category opts with
     | inl _ => True
     | inr form =>
         forall k vs,
           form !! k = Some vs ->
           (exists x, vs = [x])
           /\ In k ["action"; "category"; "meastype"; "meastypes";
                    "lastupdate"; "startdate"; "enddate"; "offset"]
     end)
  /\ (forall fields,
        match Getactivity_form fields opts with
        | inl _ => True
        | inr form =>
            forall k vs,
              form !! k = Some vs ->
              (exists x, vs = [x])
              /\ In k ["action"; "data_fields"; "lastupdate";
                       "startdateymd"; "enddateymd"; "offset"]
        end)
  /\ (forall fields,
        match Getintradayactivity_form fields opts with
        | inl _ => True
        | inr form =>
            forall k vs,
              form !! k = Some vs ->
              (exists x, vs = [x])
              /\ In k ["action"; "data_fields"; "startdate"; "enddate"]
        end)
  /\ (forall fields,
        match Getworkouts_form fields opts with
        | inl _ => True
        | inr form =>
            forall k vs,
              form !! k = Some vs ->
              (exists x, vs = [x])
              /\ In k ["action"; "data_fields"; "lastupdate";
                       "startdateymd"; "enddateymd"; "offset"]
        end).
Proof.
  split; [|split; [|split]].
  - intros types category. unfold Getmeas_form.
    destruct (MeasureCategory_IsValid category); simpl; [|done].
    destruct (length (filterValidMeasureTypeValues types) =? 0)%nat;
      [done|].
    repeat match goal with
           | |- context [if ?b then _ else _] => destruct b
           end;
      intros k vs Hk; form_key Hk.
  - intros fields. unfold Getactivity_form.
    destruct (length (filterValidActivityFieldValues fields) =? 0)%nat;
      [done|].
    repeat match goal with
           | |- context [if ?b then _ else _] => destruct b
           end;
      intros k vs Hk; form_key Hk.
  - intros fields. unfold Getintradayactivity_form.
    destruct (length (filterValidIntradayActivityFieldValues fields) =? 0)%nat;
      [done|].
    repeat match goal with
           | |- context [if ?b then _ else _] => destruct b
           end;
      intros k vs Hk; form_key Hk.
  - intros fields. unfold Getworkouts_form.
    destruct (length (filterValidWorkoutFieldValues fields) =? 0)%nat;
      [done|].
    repeat match goal with
           | |- context [if ?b then _ else _] => destruct b
           end;
      intros k vs Hk; form_key Hk.
Qed.

End FormContents.

(** ** Requests and responses *)

Section ClientProperties.
Context `{GoRuntime} `{net_url.Library} `{http.Library}
        `{mapstructure.Foreign}.
Context {Time : Type} `{TimeOps Time}.
Import withings mapstructure.

Lemma BareDo_sent (c : Client) (req : http.Request) :
  snd (BareDo c req) = [req].
Proof.
  unfold BareDo. simpl.
  destruct (client c req);
    [destruct (Context_Done_closed _)|]; reflexivity.
Qed.

Lemma Do_sent (c : Client) (req : http.Request) (v : Result) :
  sent (Do c req v) = [req].
Proof.
  assert (HB := BareDo_sent c req).
  unfold Do. destruct (BareDo c req) as [[resp e] s]. simpl in HB. subst s.
  destruct resp as [resp|]; destruct e as [e|]; try reflexivity.
  cbv zeta. destruct (json.Decode _ _) as [m e].
  destruct (match e with Some e0 => negb (is_EOF e0) | None => false end);
    [reflexivity|].
  destruct (withings.decode m (Pointer (apiResponse.to_gval apiResponse.zero)))
    as [a [e'|]]; [reflexivity|].
  destruct (withings.decode m v) as [v' [e''|]]; reflexivity.
Qed.

(** X9. [Do] gives its request to the HTTP client exactly once, whatever
    the outcome: there is no retry, and the guard against a nil context
    never fires, because the context of a request is never nil. *)
Theorem Do_sends_once (c : Client) (req : http.Request) (v : Result) :
  sent (Do c req v) = [req]
  /\ snd (BareDo c req) = [req]
  /\ BareDo c req <> (None, Some errNonNilContext, []).
Proof.
  assert (HB := BareDo_sent c req).
  split; [apply Do_sent|split; [exact HB|]].
  intros E. rewrite E in HB. discriminate HB.
Qed.

(** X10. [PostForm] sends nothing when the request cannot be made and
    returns that error. Otherwise it sends one request: the one
    [http.NewRequestWithContext] made for the method POST, the resolved
    URL and the encoded form, with [Content-Type] set to
    [application/x-www-form-urlencoded], with [User-Agent] set to the
    client's when that is not empty, and with every other header as it
    was. *)
Theorem PostForm_request (c : Client) (ctx : Context) (url : string)
  (data : url.Values) (v : Result) :
  (forall e,
     NewRequest c ctx http.MethodPost url (Values_Encode data) = inl e ->
     PostForm c ctx url data v
     = {| resp := None; err := Some e; out := v; sent := [] |})
  /\ (forall u req0,
        strings.HasSuffix (net_url.Path (BaseURL c)) "/" = true ->
        net_url.Parse (BaseURL c) url = inr u ->
        http.NewRequestWithContext ctx "POST" (net_url.String_ u)
          (Values_Encode data) = inr req0 ->
        exists req,
          sent (PostForm c ctx url data v) = [req]
          /\ PostForm c ctx url data v = Do c req v
          /\ http.Method req = http.Method req0
          /\ http.URL req = http.URL req0
          /\ http.Body req = http.Body req0
          /\ http.ctx req = http.ctx req0
          /\ http.Header_ req !! "Content-Type"
             = Some ["application/x-www-form-urlencoded"]
          /\ http.Header_ req !! "User-Agent"
             = (if String.eqb (UserAgent c) ""
                then http.Header_ req0 !! "User-Agent"
                else Some [UserAgent c])
          /\ (forall k, k <> "Content-Type" -> k <> "User-Agent" ->
                        http.Header_ req !! k = http.Header_ req0 !! k)).
Proof.
  split.
  - intros e He. unfold PostForm. by rewrite He.
  - intros u req0 Hslash Hparse Hnew.
    assert (Hreq : NewRequest c ctx http.MethodPost url (Values_Encode data)
                   = inr (if negb (String.eqb (UserAgent c) "")
                          then http.Header_Set req0 "User-Agent" (UserAgent c)
                          else req0)).
    { unfold NewRequest. rewrite Hslash. simpl negb. cbv iota.
      rewrite Hparse. unfold http.MethodPost. by rewrite Hnew. }
    eexists. unfold PostForm. rewrite Hreq.
    split; [apply Do_sent|].
    split; [reflexivity|].
    destruct (String.eqb (UserAgent c) ""); simpl;
      repeat split;
      try (rewrite lookup_insert_eq; reflexivity);
      try (rewrite lookup_insert_ne by discriminate;
           try rewrite lookup_insert_eq; reflexivity);
      intros k Hk1 Hk2; rewrite !lookup_insert_ne by congruence; reflexivity.
Qed.

(** X11. After an HTTP call that answered, [Do] either fails, and then the
    response it returns has the metadata at zero, or succeeds, and then the
    body did decode to a map that fits the metadata shape and the target,
    and the response and the target hold what that map gives. The target
    is written only by its own decoding: it is untouched when the metadata
    do not fit. *)
Theorem Do_result_sound (c : Client) (req : http.Request) (v : Result)
  (h : http.Response) :
  client c req = inr h ->
  let r := Do c req v in
  let m := fst (json.Decode (http.RespBody h) []) in
  (is_Some (err r) -> resp r = Some (newResponse h))
  /\ (err r = None ->
      exists a,
        envelope_meta m = Some a
        /\ withings.decode m v = (out r, None)
        /\ resp r
           = Some {| Response.HttpResponse := h;
                     Response.Status := apiResponse.Status a;
                     Response.More := apiResponse.More (apiResponse.Body a);
                     Response.Offset :=
                       apiResponse.Offset (apiResponse.Body a) |})
  /\ (out r = v \/ out r = fst (withings.decode m v))
  /\ (envelope_meta m = None -> out r = v /\ is_Some (err r)).
Proof.
  intros Hok. cbv zeta.
  destruct (json.Decode (http.RespBody h) []) as [m e] eqn:Hjson.
  simpl fst.
  assert (Hcases : (e = None \/ e = Some io_EOF)
                   \/ exists msg, e = Some (library_error "encoding/json" msg)).
  { unfold json.Decode in Hjson.
    destruct (json.blank (http.RespBody h)).
    - injection Hjson as _ <-. left. by right.
    - destruct (json_parse (http.RespBody h)) as [msg|m'];
        injection Hjson as _ <-; [right; by exists msg|left; by left]. }
  destruct Hcases as [He|[msg ->]].
  - rewrite (Do_decoded c req h m e v Hok Hjson He).
    pose proof (decode_apiResponse m) as Hmeta.
    destruct (envelope_meta m) as [a|].
    + destruct (withings.decode m v) as [v' [e'|]] eqn:Hv; simpl;
        (split; [|split; [|split]]).
      * done.
      * by intros [=].
      * by right.
      * by intros [=].
      * by intros [? [=]].
      * intros _. by exists a.
      * by right.
      * by intros [=].
    + destruct Hmeta as (r & e' & ->). simpl. split; [|split; [|split]].
      * done.
      * by intros [=].
      * by left.
      * intros _. split; [done|by eexists].
  - unfold Do. rewrite (BareDo_response _ _ _ Hok).
    simpl Response.HttpResponse. rewrite Hjson. simpl.
    split; [|split; [|split]].
    + done.
    + by intros [=].
    + by left.
    + intros _. split; [done|by eexists].
Qed.

(** X12. [Do] never looks at the HTTP status code: two answers with the
    same body give the same error, the same target and the same
    metadata, whatever their status codes are. *)
Theorem Do_ignores_status_code (c c' : Client) (req req' : http.Request)
  (v : Result) (code code' : Z) (body : string) :
  client c req = inr {| http.StatusCode := code; http.RespBody := body |} ->
  client c' req'
  = inr {| http.StatusCode := code'; http.RespBody := body |} ->
  let meta (r : Outcome) :=
    option_map (fun x => (Response.Status x, Response.More x,
                          Response.Offset x)) (resp r) in
  err (Do c req v) = err (Do c' req' v)
  /\ out (Do c req v) = out (Do c' req' v)
  /\ meta (Do c req v) = meta (Do c' req' v).
Proof.
  intros Hok Hok'. cbv zeta. unfold Do.
  rewrite (BareDo_response _ _ _ Hok), (BareDo_response _ _ _ Hok').
  simpl Response.HttpResponse. simpl http.RespBody. cbv zeta.
  destruct (json.Decode body []) as [m e].
  destruct (match e with Some e0 => negb (is_EOF e0) | None => false end);
    [by repeat split|].
  destruct (withings.decode m (Pointer (apiResponse.to_gval apiResponse.zero)))
    as [a [e'|]]; [by repeat split|].
  destruct (withings.decode m v) as [v' [e''|]]; by repeat split.
Qed.

(** X13. A client made by [NewClient] or [NewHIPAAClient] passes the check
    of the base URL: a request for a plain relative path is made for the
    endpoint followed by the path and carries [User-Agent: go-withings],
    and the only error is the one of [http.NewRequestWithContext]. So
    [Getmeas] posts its form to [https://wbsapi.withings.net/measure] and
    [Getactivity] to [https://wbsapi.withings.net/v2/measure]. *)
Theorem default_clients (httpClient : http.Request -> error + http.Response)
  (ctx : Context) :
  (forall method ref body,
     net_url.plain_ref ref = true ->
     NewRequest (NewClient httpClient) ctx method ref body
     = match http.NewRequestWithContext ctx method
               ("https://wbsapi.withings.net/" +:+ ref) body with
       | inl e => inl e
       | inr req0 => inr (http.Header_Set req0 "User-Agent" "go-withings")
       end
     /\ NewRequest (NewHIPAAClient httpClient) ctx method ref body
        = match http.NewRequestWithContext ctx method
                  ("https://wbsapi.us.withingsmed.net/" +:+ ref) body with
          | inl e => inl e
          | inr req0 => inr (http.Header_Set req0 "User-Agent" "go-withings")
          end)
  /\ (forall types category (opts : MeasureGetOptions.t Time) v form,
        Getmeas_form types category opts = inr form ->
        Getmeas (NewClient httpClient) ctx types category opts v
        = match http.NewRequestWithContext ctx "POST"
                  "https://wbsapi.withings.net/measure" (Values_Encode form)
          with
          | inl e => {| resp := None; err := Some e; out := v; sent := [] |}
          | inr req0 =>
              Do (NewClient httpClient)
                (http.Header_Set
                   (http.Header_Set req0 "User-Agent" "go-withings")
                   "Content-Type" "application/x-www-form-urlencoded") v
          end)
  /\ (forall fields (opts : MeasureGetOptions.t Time) v form,
        Getactivity_form fields opts = inr form ->
        Getactivity (NewClient httpClient) ctx fields opts v
        = match http.NewRequestWithContext ctx "POST"
                  "https://wbsapi.withings.net/v2/measure"
                  (Values_Encode form)
          with
          | inl e => {| resp := None; err := Some e; out := v; sent := [] |}
          | inr req0 =>
              Do (NewClient httpClient)
                (http.Header_Set
                   (http.Header_Set req0 "User-Agent" "go-withings")
                   "Content-Type" "application/x-www-form-urlencoded") v
          end).
Proof.
  assert (Hnew : forall method ref body,
             net_url.plain_ref ref = true ->
             NewRequest (NewClient httpClient) ctx method ref body
             = match http.NewRequestWithContext ctx method
                       ("https://wbsapi.withings.net/" +:+ ref) body with
               | inl e => inl e
               | inr req0 =>
                   inr (http.Header_Set req0 "User-Agent" "go-withings")
               end).
  { intros method ref body Href.
    rewrite NewRequest_plain by (try exact Href; reflexivity).
    reflexivity. }
  split; [|split].
  - intros method ref body Href. split; [by apply Hnew|].
    rewrite NewRequest_plain by (try exact Href; reflexivity).
    reflexivity.
  - intros types category opts v form Hform. unfold Getmeas, PostForm.
    rewrite Hform, Hnew by reflexivity. unfold http.MethodPost.
    by destruct (http.NewRequestWithContext _ _ _ _).
  - intros fields opts v form Hform. unfold Getactivity, PostForm.
    rewrite Hform, Hnew by reflexivity. unfold http.MethodPost.
    by destruct (http.NewRequestWithContext _ _ _ _).
Qed.

End ClientProperties.

(** ** The consent URL and the exchange, further *)

Lemma fold_setValue_app (opts1 opts2 : list x_oauth2.AuthCodeOption)
  (v : url.Values) :
  fold_left (fun v opt => x_oauth2.setValue opt v) (opts1 ++ opts2) v
  = fold_left (fun v opt => x_oauth2.setValue opt v) opts2
      (fold_left (fun v opt => x_oauth2.setValue opt v) opts1 v).
Proof. apply fold_left_app. Qed.

(** X14. With no scopes configured [AuthCodeURL] is the wrapped library's
    function: it returns the same URL for the same options, and the query
    has no [scope] parameter unless an option sets one. *)
Theorem AuthCodeURL_without_scopes `{GoRuntime} (c : oauth2.Config)
  (state : string) (opts : list x_oauth2.AuthCodeOption) :
  x_oauth2.Scopes c = [] ->
  oauth2.AuthCodeURL c state opts = x_oauth2.AuthCodeURL c state opts
  /\ (Forall (fun o => x_oauth2.optKey o <> "scope") opts ->
      oauth2.AuthCodeURL_query c state opts !! "scope" = None).
Proof.
  intros Hscopes.
  unfold oauth2.AuthCodeURL, oauth2.AuthCodeURL_query,
    oauth2.AuthCodeURL_opts.
  rewrite Hscopes. simpl. split; [reflexivity|].
  intros Hopts. unfold x_oauth2.AuthCodeURL_query.
  rewrite setValue_other by done. rewrite Hscopes. simpl.
  unfold url.Set_.
  destruct (String.eqb (x_oauth2.RedirectURL c) "");
    destruct (String.eqb state ""); simpl; form_lookup.
Qed.

(** X15. An option of the caller that sets [scope] wins over the
    configured scopes: the query holds the value of the last such
    option. *)
Theorem AuthCodeURL_scope_option (c : oauth2.Config) (state : string)
  (before after : list x_oauth2.AuthCodeOption) (value : string) :
  Forall (fun o => x_oauth2.optKey o <> "scope") after ->
  oauth2.AuthCodeURL_query c state
    (before ++ [x_oauth2.SetAuthURLParam "scope" value] ++ after) !! "scope"
  = Some [value].
Proof.
  intros Hafter.
  unfold oauth2.AuthCodeURL_query, oauth2.AuthCodeURL_opts,
    x_oauth2.AuthCodeURL_query.
  assert (E : forall (pre : list x_oauth2.AuthCodeOption) (v : url.Values),
             fold_left (fun v opt => x_oauth2.setValue opt v)
               (pre ++ [x_oauth2.SetAuthURLParam "scope" value] ++ after) v
               !! "scope" = Some [value]).
  { intros pre v. rewrite fold_setValue_app, fold_setValue_app.
    rewrite setValue_other by done. simpl. unfold url.Set_.
    by rewrite lookup_insert_eq. }
  destruct (0 <? length (x_oauth2.Scopes c))%nat.
  - exact (E (_ :: before) _).
  - apply E.
Qed.

Section ExchangeProperties.
Context {Time Raw : Type} `{oauth2.internal.Library Time Raw}.

(** X16. The form of [Exchange] holds [action], [grant_type], [code] and
    possibly [redirect_uri], each once, and nothing else: in particular no
    client identifier, no client secret and no scope, whatever the
    configuration holds. *)
Theorem Exchange_values_keys (c : oauth2.Config) (code : string) :
  (forall k vs,
     oauth2.Exchange_values c code !! k = Some vs ->
     (exists x, vs = [x])
     /\ In k ["action"; "grant_type"; "code"; "redirect_uri"])
  /\ oauth2.Exchange_values c code !! "client_id" = None
  /\ oauth2.Exchange_values c code !! "client_secret" = None
  /\ oauth2.Exchange_values c code !! "scope" = None.
Proof.
  unfold oauth2.Exchange_values, url.Set_.
  destruct (String.eqb (x_oauth2.RedirectURL c) ""); simpl;
    (split; [intros k vs Hk; form_key Hk|repeat split; form_lookup]).
Qed.

End ExchangeProperties.

(** * The properties at work on concrete inputs *)
Module Examples.
Import Sample.

Lemma AuthCodeURL_scope_witness :
  oauth2.AuthCodeURL_query sample_config "state" [oauth2.ModeDemo] !! "scope"
  = Some ["a,b,c"]
  /\ "a,b,c" <> "a b c" /\ "a,b,c" <> "a+b+c"
  /\ oauth2.AuthCodeURL_query sample_config "state" [oauth2.ModeDemo]
       !! "client_id"
     = oauth2.AuthCodeURL_query sample_config "state" [] !! "client_id".
Proof.
  pose proof (AuthCodeURL_scope sample_config "state"
                ltac:(discriminate))
    as (_ & _ & Hsep & Habc & Hother & _).
  split; [exact (proj2 (Habc eq_refl))|].
  split; [exact (proj1 (Hsep ltac:(simpl; lia)))|].
  split; [exact (proj2 (Hsep ltac:(simpl; lia)))|].
  apply Hother. repeat constructor. discriminate.
Defined.



Lemma NewRequest_BaseURL_witness :
  strings.HasSuffix (net_url.Path (withings.BaseURL misconfigured)) "/"
  = false
  /\ withings.PostForm misconfigured ctxActive "v2/resource" ∅
       (mapstructure.Pointer (mapstructure.GStruct []))
     = {| withings.resp := None;
          withings.err := Some (errBaseURL misconfigured);
          withings.out := mapstructure.Pointer (mapstructure.GStruct []);
          withings.sent := [] |}
  /\ withings.NewRequest example_client ctxActive "POST" "v2/resource" ""
     = inr {| http.ctx := Some ctxActive; http.Method := "POST";
              http.URL := "https://api.example.com/v2/resource";
              http.Header_ := {[ "User-Agent" := ["go-withings"] ]};
              http.Body := "" |}.
Proof.
  pose proof (NewRequest_BaseURL misconfigured ctxActive (Time := Z))
    as (Hbad & _ & _).
  pose proof (NewRequest_BaseURL example_client ctxActive (Time := Z))
    as (_ & Hexample & _).
  split; [reflexivity|]. split.
  - exact (proj1 (proj2 (Hbad eq_refl)) _ _ _).
  - rewrite (Hexample eq_refl). reflexivity.
Defined.

Lemma BareDo_transport_error_witness :
  withings.BareDo offline (get (Some (ctxDone context_Canceled)) "u")
  = (None, Some context_Canceled,
     [get (Some (ctxDone context_Canceled)) "u"])
  /\ withings.BareDo offline (get None "u")
     = (None, Some (library_error "net/http" "connection refused"),
        [get None "u"]).
Proof.
  split.
  - exact (proj1 (proj1 (BareDo_transport_error offline
                           (get (Some (ctxDone context_Canceled)) "u")
                           _ eq_refl) _ eq_refl)).
  - exact (proj1 (proj2 (BareDo_transport_error offline (get None "u")
                           _ eq_refl) eq_refl)).
Defined.

Lemma Do_envelope_witness :
  withings.Do (withings.NewClient (answers page_body)) (get None "u")
    (target 0 7)
  = {| withings.resp :=
         Some {| withings.Response.HttpResponse := ok page_body;
                 withings.Response.Status := 0;
                 withings.Response.More := true;
                 withings.Response.Offset := 3 |};
       withings.err := None; withings.out := target 3 7;
       withings.sent := [get None "u"] |}
  /\ withings.Do (withings.NewClient (answers failed_body)) (get None "u")
       (target 0 7)
     = {| withings.resp :=
            Some {| withings.Response.HttpResponse := ok failed_body;
                    withings.Response.Status := 293;
                    withings.Response.More := false;
                    withings.Response.Offset := 0 |};
          withings.err := None; withings.out := target 0 7;
          withings.sent := [get None "u"] |}.
Proof.
  split.
  - exact (proj1 (Do_envelope (withings.NewClient (answers page_body))
                    (get None "u") (ok page_body) page_map page_meta
                    eq_refl eq_refl eq_refl)
             (target 0 7) (target 3 7) eq_refl).
  - exact (proj1 (Do_envelope (withings.NewClient (answers failed_body))
                    (get None "u") (ok failed_body) failed_map failed_meta
                    eq_refl eq_refl eq_refl)
             (target 0 7) (target 0 7) eq_refl).
Defined.


End Examples.

(** * The further properties at work on concrete inputs *)
Module MoreExamples.
Import Sample Cases.




Lemma forms_single_valued_witness :
  exists form,
    withings.Getworkouts_form ["steps"; "calories"] dated_opts = inr form
    /\ exists x, form !! "lastupdate" = Some [x].
Proof.
  pose proof (forms_single_valued dated_opts) as (_ & _ & _ & Hwork).
  specialize (Hwork ["steps"; "calories"]).
  destruct (withings.Getworkouts_form ["steps"; "calories"] dated_opts)
    as [e|form] eqn:E; [vm_compute in E; discriminate E|].
  exists form. split; [reflexivity|].
  assert (Hl : form !! "lastupdate" = Some ["1700000000"]).
  { vm_compute in E. injection E as <-. vm_compute. reflexivity. }
  destruct (Hwork _ _ Hl) as [[x Hx] _].
  exists x. by rewrite Hl, Hx.
Defined.

Lemma PostForm_request_witness :
  exists req,
    withings.sent
      (withings.PostForm example_client ctxActive "v2/resource" ∅
         (target 0 7))
    = [req]
    /\ http.URL req = "https://api.example.com/v2/resource"
    /\ http.Header_ req !! "Content-Type"
       = Some ["application/x-www-form-urlencoded"]
    /\ http.Header_ req !! "User-Agent" = Some ["go-withings"].
Proof.
  edestruct (proj2 (PostForm_request example_client ctxActive "v2/resource" ∅
                      (target 0 7)))
    as (req & Hsent & _ & _ & Hurl & _ & _ & Hct & Hua & _);
    [reflexivity|vm_compute; reflexivity|vm_compute; reflexivity|].
  exists req. split; [exact Hsent|]. split; [exact Hurl|].
  split; [exact Hct|exact Hua].
Defined.

Lemma Do_result_sound_witness :
  withings.resp
    (withings.Do (withings.NewClient (answers mistyped_body)) (get None "u")
       (target 0 7))
  = Some (withings.newResponse (ok mistyped_body))
  /\ exists a,
       envelope_meta page_map = Some a
       /\ withings.apiResponse.Offset (withings.apiResponse.Body a) = 3.
Proof.
  split.
  - apply (Do_result_sound (withings.NewClient (answers mistyped_body))
             (get None "u") (target 0 7) (ok mistyped_body) eq_refl).
    vm_compute. by eexists.
  - pose proof (Do_result_sound (withings.NewClient (answers page_body))
                  (get None "u") (target 0 7) (ok page_body) eq_refl)
      as (_ & Hsuccess & _).
    destruct Hsuccess as (a & Ha & _ & _); [vm_compute; reflexivity|].
    exists a. split; [exact Ha|].
    vm_compute in Ha. by injection Ha as <-.
Defined.

Lemma Do_ignores_status_code_witness :
  withings.err
    (withings.Do (withings.NewClient (answers_with 200 failed_body))
       (get None "u") (target 0 7))
  = withings.err
      (withings.Do (withings.NewClient (answers_with 500 failed_body))
         (get None "u") (target 0 7)).
Proof.
  exact (proj1 (Do_ignores_status_code
                  (withings.NewClient (answers_with 200 failed_body))
                  (withings.NewClient (answers_with 500 failed_body))
                  (get None "u") (get None "u") (target 0 7) 200 500
                  failed_body eq_refl eq_refl)).
Defined.

Lemma default_clients_witness :
  withings.NewRequest (withings.NewClient (answers "")) ctxActive "POST"
    "v2/measure" "action=getactivity"
  = inr {| http.ctx := Some ctxActive; http.Method := "POST";
           http.URL := "https://wbsapi.withings.net/v2/measure";
           http.Header_ := {[ "User-Agent" := ["go-withings"] ]};
           http.Body := "action=getactivity" |}.
Proof.
  rewrite (proj1 (proj1 (default_clients (Time := Z) (answers "") ctxActive)
                    "POST" "v2/measure" "action=getactivity" eq_refl)).
  reflexivity.
Defined.

Lemma AuthCodeURL_without_scopes_witness :
  oauth2.AuthCodeURL unscoped_config "state" [oauth2.ModeDemo]
  = x_oauth2.AuthCodeURL unscoped_config "state" [oauth2.ModeDemo]
  /\ oauth2.AuthCodeURL_query unscoped_config "state" [oauth2.ModeDemo]
       !! "scope" = None.
Proof.
  destruct (AuthCodeURL_without_scopes unscoped_config "state"
              [oauth2.ModeDemo] eq_refl) as [Hurl Hscope].
  split; [exact Hurl|]. apply Hscope. repeat constructor. discriminate.
Defined.

Lemma AuthCodeURL_scope_option_witness :
  oauth2.AuthCodeURL_query sample_config "state"
    [oauth2.ModeDemo; x_oauth2.SetAuthURLParam "scope" "user.info"]
    !! "scope"
  = Some ["user.info"].
Proof.
  exact (AuthCodeURL_scope_option sample_config "state" [oauth2.ModeDemo] []
           "user.info" (List.Forall_nil _)).
Defined.

Lemma Exchange_values_keys_witness :
  exists x, oauth2.Exchange_values sample_config "good" !! "redirect_uri"
            = Some [x].
Proof.
  destruct (proj1 (Exchange_values_keys sample_config "good") "redirect_uri"
              ["https://example.com/callback"] eq_refl) as [[x Hx] _].
  exists x. by rewrite <- Hx.
Defined.


End MoreExamples.
